(** * Verification of [script/validate-data/index.ts]

    The script walks the configured folders, validates every workflow file and
    its sidecar [properties/<type>.properties.json] document, and reports the
    files that have errors.  This development embeds the four functions of the
    script ([validateWorkflowProperties], [checkWorkflow], [checkWorkflows],
    [main]) in a small exception-and-trace monad and proves the properties the
    specification states about them. *)

From Stdlib Require Import List String Ascii Bool PrimFloat.
From Stdlib Require Import DecimalString.
Import ListNotations.
Open Scope string_scope.

Set Implicit Arguments.
Set Warnings "-register-all".

(* ================================================================= *)
(** * JavaScript values *)

(** What [JSON.parse] returns.  An object is kept as the list of its own
    properties. *)
Inductive json : Type :=
| JNull
| JBool (b : bool)
| JNum (n : float)
| JStr (s : string)
| JArr (items : list json)
| JObj (fields : list (string * json)).

(** A value the script or the schema engine holds: a JSON value, or
    [undefined] ([None]), which is what reading an absent property gives and
    what [safeLoad] returns for an empty document. *)
Definition value : Type := option json.
Definition undefined : value := None.

(** Values that are thrown in this program are all [Error] objects: the ones
    of Node's [fs] and [require], [SyntaxError] of [JSON.parse], [TypeError] of
    the language, [SchemaError] of the schema engine; js-yaml's exception
    carries its own rendering. *)
Inductive exn : Type :=
| JsError (name message : string)
| YAMLException (rendered : string).

(** [Error.prototype.toString]. *)
Definition exn_toString (e : exn) : string :=
  match e with
  | JsError name message =>
      if String.eqb name "" then message
      else if String.eqb message "" then name
      else name ++ ": " ++ message
  | YAMLException rendered => rendered
  end.

Definition TypeError (message : string) : exn := JsError "TypeError" message.

(** A computation either completes with a value or throws. *)
Inductive result (A : Type) : Type :=
| Ok (a : A)
| Throw (e : exn).
Arguments Ok {A} a.
Arguments Throw {A} e.

(** [ToBoolean]. *)
Definition truthy (v : value) : bool :=
  match v with
  | None | Some JNull => false
  | Some (JBool b) => b
  | Some (JNum n) => negb (PrimFloat.eqb n 0%float || PrimFloat.is_nan n)
  | Some (JStr s) => negb (String.eqb s "")
  | Some (JArr _) | Some (JObj _) => true
  end.

Fixpoint lookup (key : string) (fields : list (string * json)) : value :=
  match fields with
  | [] => undefined
  | (k, v) :: rest => if String.eqb k key then Some v else lookup key rest
  end.

(** [o.key] on a parsed document, for a key that no prototype defines: a
    [TypeError] on [null], the own property of an object, [undefined] on
    anything else. *)
Definition get_property (o : json) (key : string) : result value :=
  match o with
  | JNull =>
      Throw (TypeError ("Cannot read property '" ++ key ++ "' of null"))
  | JObj fields => Ok (lookup key fields)
  | _ => Ok undefined
  end.

(** [String.prototype.startsWith]. *)
Definition startsWith (s p : string) : bool := String.prefix p s.

(* ================================================================= *)
(** * The schema engine

    [new Validator().validate(instance, schema)] of the [jsonschema] package,
    for the keywords [propertiesSchema] is written with.  The package is a
    dependency of the script and not part of its source.  A schema is the list
    of its keywords in the order the object literal gives them, which is the
    order the engine visits them in ([for (var key in schema)]). *)

Inductive type_name : Type := TObject | TString | TArray | TNull.

Inductive schema : Type :=
| Schema (keywords : list keyword)
with keyword : Type :=
| KType (t : type_name)
| KRequired (b : bool)
| KProperties (props : list (string * schema))
| KItems (item : schema)
| KAnyOf (alternatives : list schema).

(** One violation: the path of the offending instance and the message. *)
Record ValidationError : Type := mkValidationError {
  property : string;
  message : string
}.

(** [ValidationError.prototype.toString]. *)
Definition ValidationError_toString (e : ValidationError) : string :=
  property e ++ " " ++ message e.

Definition type_name_toString (t : type_name) : string :=
  match t with
  | TObject => "object"
  | TString => "string"
  | TArray => "array"
  | TNull => "null"
  end.

(** The engine's [types.*] predicates: an array and [null] are not objects. *)
Definition testType (v : value) (t : type_name) : bool :=
  match t, v with
  | TObject, Some (JObj _) => true
  | TString, Some (JStr _) => true
  | TArray, Some (JArr _) => true
  | TNull, Some JNull => true
  | _, _ => false
  end.

Definition is_undefined (v : value) : bool :=
  match v with None => true | Some _ => false end.

(** The property the engine reads for a key: [undefined] when absent. *)
Definition own_property (v : value) (key : string) : value :=
  match v with
  | Some (JObj fields) => lookup key fields
  | _ => undefined
  end.

Definition nat_toString (n : nat) : string :=
  NilEmpty.string_of_uint (Nat.to_uint n).

(** [makeSuffix]: [.key] for a key that reads as an identifier (every key of
    [propertiesSchema] does) and [[i]] for an array index. *)
Definition property_suffix (key : string) : string := "." ++ key.
Definition index_suffix (i : nat) : string := "[" ++ nat_toString i ++ "]".

(** The name an [anyOf] message gives its alternatives; the ones of
    [propertiesSchema] have no [id], [title] or [$ref]. *)
Fixpoint subschema_names (i n : nat) : list string :=
  match n with
  | O => []
  | S n' => ("[subschema " ++ nat_toString i ++ "]") :: subschema_names (S i) n'
  end.

Definition isEmpty {A} (l : list A) : bool :=
  match l with [] => true | _ :: _ => false end.

(** The loop of the [items] keyword: [validateItem] is the validation against
    the item schema, [i] the index of the first element of [vs]. *)
Fixpoint each_item (validateItem : value -> string -> list ValidationError)
    (path : string) (vs : list json) (i : nat) : list ValidationError :=
  match vs with
  | [] => []
  | v :: vs' =>
      List.app (validateItem (Some v) (path ++ index_suffix i))
        (each_item validateItem path vs' (S i))
  end.

(** Modelled from the spec: the schema-validation engine ([jsonschema]), which
    the script imports and the specification treats as a black box that turns
    every violated constraint of the schema into one error (section 4.2).
    [validateSchema] runs the validator of every keyword of the schema and
    gathers their errors; [validateKeyword] follows the package's validators
    for [type], [required] (the boolean form), [properties], [items] and
    [anyOf]: all but [required] skip an [undefined] instance, [properties]
    skips what is not an object, [anyOf] reports one error of its own and
    drops those of its alternatives. *)
Fixpoint validateSchema (s : schema) (instance : value) (path : string)
  {struct s} : list ValidationError :=
  match s with
  | Schema keywords =>
      flat_map (fun k => validateKeyword k instance path) keywords
  end
with validateKeyword (k : keyword) (instance : value) (path : string)
  {struct k} : list ValidationError :=
  match k with
  | KType t =>
      if is_undefined instance then []
      else if testType instance t then []
      else [mkValidationError path ("is not of a type(s) " ++ type_name_toString t)]
  | KRequired b =>
      if is_undefined instance && b
      then [mkValidationError path "is required"]
      else []
  | KProperties props =>
      if testType instance TObject then
        flat_map
          (fun p : string * schema =>
             let (key, sub) := p in
             validateSchema sub (own_property instance key)
               (path ++ property_suffix key))
          props
      else []
  | KItems item =>
      match instance with
      | Some (JArr items) => each_item (validateSchema item) path items 0
      | _ => []
      end
  | KAnyOf alternatives =>
      if is_undefined instance then []
      else if existsb (fun sub => isEmpty (validateSchema sub instance path))
                alternatives
      then []
      else [mkValidationError path
              ("is not any of " ++
               String.concat "," (subschema_names 0 (List.length alternatives)))]
  end.

(** [v.validate(instance, schema).errors]. *)
Definition validate (instance : value) (s : schema) : list ValidationError :=
  validateSchema s instance "instance".

(** [propertiesSchema], lines 21-41. *)
Definition propertiesSchema : schema :=
  Schema
    [ KType TObject;
      KProperties
        [ ("name", Schema [KType TString; KRequired true]);
          ("description", Schema [KType TString; KRequired true]);
          ("creator", Schema [KType TString; KRequired false]);
          ("iconName", Schema [KType TString; KRequired true]);
          ("categories",
            Schema
              [ KAnyOf [ Schema [KType TArray; KItems (Schema [KType TString])];
                         Schema [KType TNull] ];
                KRequired true ]) ] ].

(* ================================================================= *)
(** * The world outside the script *)

(** What the run does to the outside, in the order it happens: its calls of
    [fs] ([readdir], [readFile], [access]) and of [@actions/core].  Loading a
    document with [require] is a call of neither and leaves no event. *)
Inductive event : Type :=
| EvReaddir (path : string)
| EvReadFile (path : string)
| EvAccess (path : string)
| EvInfo (msg : string)
| EvError (msg : string)
| EvStartGroup (name : string)
| EvEndGroup
| EvSetFailed (msg : string).

(** [fs.Dirent], as far as the script looks at it. *)
Record Dirent : Type := mkDirent {
  dirent_name : string;
  isFile : bool
}.

(** The file system, the parsers, Node's [path] module, the clock and the two
    documents the script loads with [require].  The script only reads, so the
    world is the same at every step of a run. *)
Record World : Type := mkWorld {
  (** [fs.readdir(folder, {withFileTypes: true})] *)
  fs_readdir : string -> result (list Dirent);
  (** [fs.readFile(path, "utf8")] *)
  fs_readFile : string -> result string;
  (** [fs.access(path)]: completes when the file is there, throws otherwise *)
  fs_access : string -> result unit;
  JSON_parse : string -> result json;
  (** js-yaml's [safeLoad] *)
  safeLoad : string -> result value;
  (** [require("./workflow-schema.json")] and then
      [workflowValidator.validate(workflow, workflowSchema).errors]; it throws
      when the schema document cannot be loaded or the engine throws *)
  validate_workflow : value -> result (list ValidationError);
  (** [require("./settings.json").folders] *)
  settings_folders : result (list string);
  path_join : list string -> string;
  path_basename : string -> string -> string;
  path_extname : string -> string;
  (** the n-th reading of [performance.now()] *)
  performance_now : nat -> float;
  (** how JavaScript prints a number *)
  Number_toString : float -> string
}.

(* ================================================================= *)
(** * Computations: a trace of events and a result or an exception *)

Definition M (A : Type) : Type := list event -> list event * result A.

Definition ret {A} (a : A) : M A := fun t => (t, Ok a).

Definition throw {A} (e : exn) : M A := fun t => (t, Throw e).

Definition bind {A B} (m : M A) (k : A -> M B) : M B :=
  fun t =>
    match m t with
    | (t', Ok a) => k a t'
    | (t', Throw e) => (t', Throw e)
    end.

(** [try { m } catch (e) { handler e }]. *)
Definition try_catch {A} (m : M A) (handler : exn -> M A) : M A :=
  fun t =>
    match m t with
    | (t', Ok a) => (t', Ok a)
    | (t', Throw e) => handler e t'
    end.

(** Runs [m] and hands back how it ended, for a [try] whose handler reads
    variables the block assigned before it threw. *)
Definition attempt {A} (m : M A) : M (result A) :=
  fun t => let (t', r) := m t in (t', Ok r).

Definition emit (e : event) : M unit := fun t => ((t ++ [e])%list, Ok tt).

Definition lift {A} (r : result A) : M A := fun t => (t, r).

Declare Scope m_scope.
Delimit Scope m_scope with M.
Notation "x <- m ;; k" := (bind m (fun x => k))
  (at level 61, m at next level, right associativity) : m_scope.
Notation "m ;;; k" := (bind m (fun _ => k))
  (at level 61, right associativity) : m_scope.
Open Scope m_scope.

(** The list a [push] leaves behind. *)
Definition push {A} (l : list A) (a : A) : list A := (l ++ [a])%list.

(** [WorkflowWithErrors], lines 9-12. *)
Record WorkflowWithErrors : Type := mkWorkflowWithErrors {
  id : string;
  errors : list string
}.

Definition set_errors (r : WorkflowWithErrors) (es : list string) : WorkflowWithErrors :=
  {| id := id r; errors := es |}.

Section Script.

Variable w : World.

Definition readdir (folder : string) : M (list Dirent) :=
  emit (EvReaddir folder) ;;; lift (fs_readdir w folder).

Definition readFile (path : string) : M string :=
  emit (EvReadFile path) ;;; lift (fs_readFile w path).

Definition access (path : string) : M unit :=
  emit (EvAccess path) ;;; lift (fs_access w path).

Definition icon_path (iconName : string) : string :=
  "../../icons/" ++ iconName ++ ".svg".

Definition missing_icon (iconName : string) : string :=
  "No icon named " ++ iconName ++ " found".

(** Lines 68-89.  The outer [catch] only rethrows.  [properties.iconName]
    throws on [null]; a truthy [iconName] that is not a string has no
    [startsWith] to call. *)
Definition validateWorkflowProperties (propertiesPath : string) : M (list string) :=
  try_catch
    (propertiesFileContent <- readFile propertiesPath ;;
     properties <- lift (JSON_parse w propertiesFileContent) ;;
     let errors :=
       map ValidationError_toString
         (validate (Some properties) propertiesSchema) in
     iconName <- lift (get_property properties "iconName") ;;
     if truthy iconName then
       match iconName with
       | Some (JStr s) =>
           if negb (startsWith s "octicon") then
             try_catch
               (access (icon_path s) ;;; ret errors)
               (fun _ => ret (push errors (missing_icon s)))
           else ret errors
       | _ =>
           throw (TypeError "properties.iconName.startsWith is not a function")
       end
     else ret errors)
    (fun e => throw e).

(** Lines 91-114.  The [catch] pushes onto whatever [workflowErrors.errors]
    holds when the exception arrives: still the empty list when the metadata
    validation threw, the metadata errors afterwards. *)
Definition checkWorkflow (workflowPath propertiesPath : string)
  : M WorkflowWithErrors :=
  let workflowErrors := {| id := workflowPath; errors := [] |} in
  r <- attempt (validateWorkflowProperties propertiesPath) ;;
  match r with
  | Throw e =>
      ret (set_errors workflowErrors
             (push (errors workflowErrors) (exn_toString e)))
  | Ok metadataErrors =>
      let workflowErrors := set_errors workflowErrors metadataErrors in
      r <- attempt
             (workflowFileContent <- readFile workflowPath ;;
              workflow <- lift (safeLoad w workflowFileContent) ;;
              workflowValidationResult <- lift (validate_workflow w workflow) ;;
              ret (map ValidationError_toString workflowValidationResult)) ;;
      match r with
      | Throw e =>
          ret (set_errors workflowErrors
                 (push (errors workflowErrors) (exn_toString e)))
      | Ok workflowValidationErrors =>
          ret (set_errors workflowErrors
                 (errors workflowErrors ++ workflowValidationErrors)%list)
      end
  end.

Definition workflowFilePath (folder : string) (e : Dirent) : string :=
  path_join w [folder; dirent_name e].

Definition propertiesFilePath (folder : string) (e : Dirent) : string :=
  let fileType :=
    path_basename w (dirent_name e) (path_extname w (dirent_name e)) in
  path_join w [folder; "properties"; fileType ++ ".properties.json"].

(** The inner loop of [checkWorkflows], lines 50-62. *)
Fixpoint scan_entries (folder : string) (dir : list Dirent)
    (result : list WorkflowWithErrors) : M (list WorkflowWithErrors) :=
  match dir with
  | [] => ret result
  | e :: dir' =>
      if isFile e then
        errors_ <- checkWorkflow (workflowFilePath folder e)
                     (propertiesFilePath folder e) ;;
        if Nat.ltb 0 (List.length (errors errors_))
        then scan_entries folder dir' (push result errors_)
        else scan_entries folder dir' result
      else scan_entries folder dir' result
  end.

(** The outer loop, lines 45-63. *)
Fixpoint scan_folders (folders : list string)
    (result : list WorkflowWithErrors) : M (list WorkflowWithErrors) :=
  match folders with
  | [] => ret result
  | folder :: folders' =>
      dir <- readdir folder ;;
      result' <- scan_entries folder dir result ;;
      scan_folders folders' result'
  end.

(** Lines 42-66. *)
Definition checkWorkflows (folders : list string) : M (list WorkflowWithErrors) :=
  scan_folders folders [].

Definition info (msg : string) : M unit := emit (EvInfo msg).
Definition error (msg : string) : M unit := emit (EvError msg).
Definition startGroup (name : string) : M unit := emit (EvStartGroup name).
Definition endGroup : M unit := emit EvEndGroup.
Definition setFailed (msg : string) : M unit := emit (EvSetFailed msg).

Fixpoint forEach {A} (l : list A) (f : A -> M unit) : M unit :=
  match l with
  | [] => ret tt
  | a :: l' => f a ;;; forEach l' f
  end.

(** Lines 116-140. *)
Definition main : M unit :=
  try_catch
    (folders <- lift (settings_folders w) ;;
     let t0 := performance_now w 0 in
     erroredWorkflows <- checkWorkflows folders ;;
     let t1 := performance_now w 1 in
     info ("Call to checkWorkflows took "
             ++ Number_toString w (PrimFloat.sub t1 t0) ++ " milliseconds.") ;;;
     if Nat.ltb 0 (List.length erroredWorkflows) then
       startGroup ("😟 - Found " ++ nat_toString (List.length erroredWorkflows)
                     ++ " workflows with errors:") ;;;
       forEach erroredWorkflows (fun erroredWorkflow =>
         error ("Errors in " ++ id erroredWorkflow ++ " - "
                  ++ String.concat ", " (errors erroredWorkflow))) ;;;
       endGroup ;;;
       setFailed ("Found " ++ nat_toString (List.length erroredWorkflows)
                    ++ " workflows with errors")
     else
       info "🎉🤘 - Found no workflows with errors!")
    (fun e =>
       error ("Unhandled error while syncing workflows: " ++ exn_toString e) ;;;
       setFailed "Unhandled error").

End Script.

(* ================================================================= *)
(** * Traces and outcomes *)

(** A computation only ever appends to the trace it is given, and what it
    appends and returns does not depend on that trace. *)
Definition events {A} (m : M A) : list event := fst (m []).
Definition outcome {A} (m : M A) : result A := snd (m []).

Definition framed {A} (m : M A) : Prop :=
  forall t, m t = ((t ++ events m)%list, outcome m).


(* ================================================================= *)
(** * The parts of the metadata schema *)

(** The schema of a string property and the one of [categories], as they
    stand inside [propertiesSchema]. *)
Definition stringSchema (required : bool) : schema :=
  Schema [KType TString; KRequired required].

Definition categoriesSchema : schema :=
  Schema
    [ KAnyOf [ Schema [KType TArray; KItems (Schema [KType TString])];
               Schema [KType TNull] ];
      KRequired true ].

Definition is_string (v : json) : bool :=
  match v with JStr _ => true | _ => false end.

(** An array of strings, or [null]. *)
Definition categories_ok (v : value) : bool :=
  match v with
  | Some JNull => true
  | Some (JArr items) => forallb is_string items
  | _ => false
  end.

Definition required_error (field : string) : ValidationError :=
  mkValidationError ("instance." ++ field) "is required".

Definition categories_error (path : string) : ValidationError :=
  mkValidationError path "is not any of [subschema 0],[subschema 1]".

Arguments validate : simpl never.

(* ================================================================= *)
(** * Statements about the scan *)

(** A record is kept by the scan when its error list is not empty. *)
Definition has_errors (r : WorkflowWithErrors) : bool :=
  negb (isEmpty (errors r)).

Definition listable (w : World) (folder : string) : Prop :=
  exists dir, fs_readdir w folder = Ok dir.

(** The (workflow path, metadata path) pairs of a folder, in the order of its
    listing: one for every regular file. *)
Definition workflow_files (w : World) (folder : string) : list (string * string) :=
  match fs_readdir w folder with
  | Ok dir =>
      map (fun e => (workflowFilePath w folder e, propertiesFilePath w folder e))
        (filter isFile dir)
  | Throw _ => []
  end.

(** Discovery order: folder after folder. *)
Definition discovered (w : World) (folders : list string) : list (string * string) :=
  flat_map (workflow_files w) folders.

(** [r] is the record [checkWorkflow] returns for the pair [p]. *)
Definition record_of (w : World) (p : string * string) (r : WorkflowWithErrors) : Prop :=
  outcome (checkWorkflow w (fst p) (snd p)) = Ok r.

(* ================================================================= *)
(** * Two sentences of the specification, as they are worded *)

(** "For all metadata documents with [iconName] not prefixed with the built-in
    marker and no matching SVG resource on disk, the result includes an error
    naming that icon; if the resource exists, no such error is present." *)
Definition icon_claim_as_stated (w : World) (propertiesPath : string) : Prop :=
  forall content properties iconName,
    fs_readFile w propertiesPath = Ok content ->
    JSON_parse w content = Ok properties ->
    get_property properties "iconName" = Ok (Some (JStr iconName)) ->
    startsWith iconName "octicon" = false ->
    exists t errs,
      validateWorkflowProperties w propertiesPath [] = (t, Ok errs) /\
      ((exists e, fs_access w (icon_path iconName) = Throw e) ->
       In (missing_icon iconName) errs) /\
      (fs_access w (icon_path iconName) = Ok tt ->
       ~ In (missing_icon iconName) errs).

(** "For all metadata documents missing a required field ([name],
    [description], or [iconName]), the Metadata Validator returns a non-empty
    error list containing a violation for that field." *)
Definition required_claim_as_stated (w : World) (propertiesPath : string) : Prop :=
  forall content properties field,
    fs_readFile w propertiesPath = Ok content ->
    JSON_parse w content = Ok properties ->
    In field ["name"; "description"; "iconName"] ->
    own_property (Some properties) field = undefined ->
    exists t errs,
      validateWorkflowProperties w propertiesPath [] = (t, Ok errs) /\
      errs <> [] /\
      In (ValidationError_toString (required_error field)) errs.

(* ================================================================= *)
(** * A sample repository

    Two folders of workflows and one that is not there, small enough to run
    the script on. *)
Module Sample.

Definition quote : string := String (ascii_of_nat 34) EmptyString.

(** JSON text. *)
Definition str (s : string) : string := quote ++ s ++ quote.
Definition member (key text : string) : string := str key ++ ":" ++ text.
Definition object (members : list string) : string :=
  "{" ++ String.concat "," members ++ "}".

(** [octicon] icon, everything in place. *)
Definition node_properties : string :=
  object [ member "name" (str "Node"); member "description" (str "Build");
           member "iconName" (str "octicon package");
           member "categories" "null" ].

(** An empty [iconName]. *)
Definition blank_properties : string :=
  object [ member "name" (str "Blank"); member "description" (str "Empty");
           member "iconName" (str "");
           member "categories" ("[" ++ str "CI" ++ "]") ].

(** No [name], and a number for [iconName]. *)
Definition bad_properties : string :=
  object [ member "description" (str "Bad"); member "iconName" "5";
           member "categories" "null" ].

(** An icon that is not in the icons directory. *)
Definition label_properties : string :=
  object [ member "name" (str "Label"); member "description" (str "Labels");
           member "iconName" (str "label"); member "categories" "null" ].

(** An icon that is in the icons directory, and no [description]. *)
Definition greet_properties : string :=
  object [ member "name" (str "Greet"); member "iconName" (str "greet");
           member "categories" (str "Automation") ].

Definition documents : list (string * json) :=
  [ (node_properties,
     JObj [ ("name", JStr "Node"); ("description", JStr "Build");
            ("iconName", JStr "octicon package"); ("categories", JNull) ]);
    (blank_properties,
     JObj [ ("name", JStr "Blank"); ("description", JStr "Empty");
            ("iconName", JStr ""); ("categories", JArr [JStr "CI"]) ]);
    (bad_properties,
     JObj [ ("description", JStr "Bad"); ("iconName", JNum 5%float);
            ("categories", JNull) ]);
    (label_properties,
     JObj [ ("name", JStr "Label"); ("description", JStr "Labels");
            ("iconName", JStr "label"); ("categories", JNull) ]);
    (greet_properties,
     JObj [ ("name", JStr "Greet"); ("iconName", JStr "greet");
            ("categories", JStr "Automation") ]) ].

Definition files : list (string * string) :=
  [ ("ci/node.yml", "name: Node");
    ("ci/blank.yml", "Blank");
    ("ci/bad.yml", "Bad");
    ("ci/properties/node.properties.json", node_properties);
    ("ci/properties/blank.properties.json", blank_properties);
    ("ci/properties/bad.properties.json", bad_properties);
    ("automation/label.yml", "name: Label");
    ("automation/greet.yml", "on: [");
    ("automation/stale.yml", "Stale");
    ("automation/properties/label.properties.json", label_properties);
    ("automation/properties/greet.properties.json", greet_properties);
    ("../../icons/greet.svg", "<svg/>") ].

Definition directories : list (string * list Dirent) :=
  [ ("ci",
     [ mkDirent "bad.yml" true; mkDirent "blank.yml" true;
       mkDirent "node.yml" true; mkDirent "properties" false ]);
    ("automation",
     [ mkDirent "greet.yml" true; mkDirent "label.yml" true;
       mkDirent "properties" false; mkDirent "stale.yml" true ]) ].

Fixpoint assoc {A} (key : string) (l : list (string * A)) : option A :=
  match l with
  | [] => None
  | (k, a) :: rest => if String.eqb k key then Some a else assoc key rest
  end.

Definition ENOENT (syscall path : string) : exn :=
  JsError "Error"
    ("ENOENT: no such file or directory, " ++ syscall ++ " '" ++ path ++ "'").

Definition from_table {A} (syscall : string) (table : list (string * A))
    (path : string) : result A :=
  match assoc path table with
  | Some a => Ok a
  | None => Throw (ENOENT syscall path)
  end.

(** The texts of this repository parse to the documents above. *)
Definition parse (text : string) : result json :=
  match assoc text documents with
  | Some doc => Ok doc
  | None => Throw (JsError "SyntaxError" "Unexpected token in JSON")
  end.

(** The workflow bodies of this repository: one does not parse, the others
    are a mapping with a [name] or a plain scalar. *)
Definition load (text : string) : result value :=
  if String.eqb text "on: [" then
    Throw (YAMLException
             "YAMLException: unexpected end of the stream within a flow collection")
  else if String.eqb text "name: Node" then
    Ok (Some (JObj [("name", JStr "Node")]))
  else if String.eqb text "name: Label" then
    Ok (Some (JObj [("name", JStr "Label")]))
  else Ok (Some (JStr text)).

(** The extension of an entry name: from its last dot on, a leading dot
    apart. *)
Fixpoint from_last_dot (name : string) : string :=
  match name with
  | EmptyString => ""
  | String c rest =>
      match from_last_dot rest with
      | EmptyString => if Ascii.eqb c "." then name else ""
      | ext => ext
      end
  end.

Definition extname (name : string) : string :=
  match name with
  | String "." rest => from_last_dot rest
  | _ => from_last_dot name
  end.

Definition basename (name ext : string) : string :=
  let n := String.length name - String.length ext in
  if String.eqb (String.substring n (String.length ext) name) ext
     && negb (String.eqb name ext)
  then String.substring 0 n name
  else name.

Definition world : World :=
  {| fs_readdir := from_table "scandir" directories;
     fs_readFile := from_table "open" files;
     fs_access := fun path =>
       match assoc path files with
       | Some _ => Ok tt
       | None => Throw (ENOENT "access" path)
       end;
     JSON_parse := parse;
     safeLoad := load;
     validate_workflow := fun workflow =>
       match workflow with
       | Some (JObj _) => Ok []
       | _ => Ok [mkValidationError "instance" "is not of a type(s) object"]
       end;
     settings_folders := Ok ["ci"; "automation"];
     path_join := String.concat "/";
     path_basename := basename;
     path_extname := extname;
     performance_now := fun n =>
       match n with O => 0%float | S _ => 3%float end;
     Number_toString := fun x =>
       if PrimFloat.eqb x 3%float then "3" else "0" |}.

(** The same repository with a third folder configured that does not
    exist. *)
Definition misconfigured : World :=
  {| fs_readdir := fs_readdir world;
     fs_readFile := fs_readFile world;
     fs_access := fs_access world;
     JSON_parse := JSON_parse world;
     safeLoad := safeLoad world;
     validate_workflow := validate_workflow world;
     settings_folders := Ok ["ci"; "missing"; "automation"];
     path_join := path_join world;
     path_basename := path_basename world;
     path_extname := path_extname world;
     performance_now := performance_now world;
     Number_toString := Number_toString world |}.

End Sample.

(* ================================================================= *)
(** * Statements about accepted documents, events and the report *)

Definition is_string_value (v : value) : bool :=
  match v with Some (JStr _) => true | _ => false end.

(** A document [propertiesSchema] has nothing to say against: an object whose
    [name], [description] and [iconName] are strings, whose [creator] is a
    string when it is there, and whose [categories] is an array of strings or
    [null]. *)
Definition well_formed (doc : json) : bool :=
  match doc with
  | JObj fields =>
      is_string_value (lookup "name" fields)
      && is_string_value (lookup "description" fields)
      && (is_undefined (lookup "creator" fields)
          || is_string_value (lookup "creator" fields))
      && is_string_value (lookup "iconName" fields)
      && categories_ok (lookup "categories" fields)
  | _ => false
  end.

(** [fs.access] on the icon file completes. *)
Definition icon_found (w : World) (iconName : string) : bool :=
  match fs_access w (icon_path iconName) with
  | Ok _ => true
  | Throw _ => false
  end.

(** A well-formed document whose icon needs no file or has one. *)
Definition accepted (w : World) (doc : json) : bool :=
  well_formed doc
  && match own_property (Some doc) "iconName" with
     | Some (JStr s) =>
         String.eqb s "" || startsWith s "octicon" || icon_found w s
     | _ => false
     end.

(** The strings line 76 computes. *)
Definition schema_errors (doc : json) : list string :=
  map ValidationError_toString (validate (Some doc) propertiesSchema).

Definition type_error (field : string) : ValidationError :=
  mkValidationError ("instance." ++ field) "is not of a type(s) string".

Definition property_names : list string :=
  ["name"; "description"; "creator"; "iconName"; "categories"].

Definition is_fs_event (e : event) : bool :=
  match e with
  | EvReaddir _ | EvReadFile _ | EvAccess _ => true
  | _ => false
  end.

Definition is_setFailed (e : event) : bool :=
  match e with EvSetFailed _ => true | _ => false end.

(** Every event [m] adds to the trace satisfies [P]. *)
Definition emits {A} (P : event -> bool) (m : M A) : Prop :=
  forall t, exists tr, fst (m t) = (t ++ tr)%list /\ forallb P tr = true.

(** The line [main] logs after the scan, line 124. *)
Definition timing_line (w : World) : event :=
  EvInfo ("Call to checkWorkflows took "
            ++ Number_toString w
                 (PrimFloat.sub (performance_now w 1) (performance_now w 0))
            ++ " milliseconds.").

(** The line [main] logs for one errored workflow, line 129. *)
Definition error_line (r : WorkflowWithErrors) : event :=
  EvError ("Errors in " ++ id r ++ " - " ++ String.concat ", " (errors r)).

(** How a loop that started with [kept] in [result] ends, given how it ends
    when it starts from the empty list. *)
Definition prepend (kept : list WorkflowWithErrors)
    (p : list event * result (list WorkflowWithErrors))
  : list event * result (list WorkflowWithErrors) :=
  match p with
  | (t, Ok found) => (t, Ok (kept ++ found)%list)
  | (t, Throw e) => (t, Throw e)
  end.

(** The sample repository with two more metadata documents, [null] and an
    empty array, and a folder in which everything is in order. *)
Module Edge.

Definition files : list (string * string) :=
  (Sample.files ++
   [ ("ci/properties/null.properties.json", "null");
     ("ci/properties/list.properties.json", "[]");
     ("stable/build.yml", "name: Node");
     ("stable/properties/build.properties.json", Sample.node_properties) ])%list.

Definition directories : list (string * list Dirent) :=
  (Sample.directories ++
   [ ("stable", [mkDirent "build.yml" true; mkDirent "properties" false]) ])%list.

Definition parse (text : string) : result json :=
  if String.eqb text "null" then Ok JNull
  else if String.eqb text "[]" then Ok (JArr [])
  else Sample.parse text.

Definition world : World :=
  {| fs_readdir := Sample.from_table "scandir" directories;
     fs_readFile := Sample.from_table "open" files;
     fs_access := fun path =>
       match Sample.assoc path files with
       | Some _ => Ok tt
       | None => Throw (Sample.ENOENT "access" path)
       end;
     JSON_parse := parse;
     safeLoad := safeLoad Sample.world;
     validate_workflow := validate_workflow Sample.world;
     settings_folders := Ok ["stable"];
     path_join := path_join Sample.world;
     path_basename := path_basename Sample.world;
     path_extname := path_extname Sample.world;
     performance_now := performance_now Sample.world;
     Number_toString := Number_toString Sample.world |}.

End Edge.

(* ================================================================= *)
(** * Running computations: lemmas *)

Lemma framed_ret A (a : A) : framed (ret a).
Proof. intro t. unfold ret, events, outcome. simpl. now rewrite app_nil_r. Qed.

Lemma framed_throw A (e : exn) : framed (@throw A e).
Proof. intro t. unfold throw, events, outcome. simpl. now rewrite app_nil_r. Qed.

Lemma framed_lift A (r : result A) : framed (lift r).
Proof. intro t. unfold lift, events, outcome. simpl. now rewrite app_nil_r. Qed.

Lemma framed_emit (e : event) : framed (emit e).
Proof. intro t. reflexivity. Qed.

Lemma framed_bind A B (m : M A) (k : A -> M B) :
  framed m -> (forall a, framed (k a)) -> framed (bind m k).
Proof.
  intros Hm Hk t. unfold events, outcome, bind.
  rewrite (Hm t), (Hm []). simpl.
  destruct (outcome m) as [a|e]; simpl.
  - rewrite (Hk a (t ++ events m)%list), (Hk a (events m)). simpl.
    now rewrite app_assoc.
  - reflexivity.
Qed.

Lemma framed_try_catch A (m : M A) (h : exn -> M A) :
  framed m -> (forall e, framed (h e)) -> framed (try_catch m h).
Proof.
  intros Hm Hh t. unfold events, outcome, try_catch.
  rewrite (Hm t), (Hm []). simpl.
  destruct (outcome m) as [a|e]; simpl.
  - reflexivity.
  - rewrite (Hh e (t ++ events m)%list), (Hh e (events m)). simpl.
    now rewrite app_assoc.
Qed.

Lemma framed_attempt A (m : M A) : framed m -> framed (attempt m).
Proof.
  intros Hm t. unfold events, outcome, attempt.
  rewrite (Hm t), (Hm []). reflexivity.
Qed.

Ltac framed_step :=
  first
    [ apply framed_ret | apply framed_throw | apply framed_lift
    | apply framed_emit | apply framed_attempt
    | apply framed_bind; [ | intro ]
    | apply framed_try_catch; [ | intro ]
    | match goal with
      | |- framed (if ?b then _ else _) => destruct b
      | |- framed (match ?x with _ => _ end) => destruct x
      end ].

Lemma framed_readFile w path : framed (readFile w path).
Proof. unfold readFile. repeat framed_step. Qed.

Lemma framed_validateWorkflowProperties w propertiesPath :
  framed (validateWorkflowProperties w propertiesPath).
Proof. unfold validateWorkflowProperties, readFile, access. repeat framed_step. Qed.

Lemma framed_checkWorkflow w workflowPath propertiesPath :
  framed (checkWorkflow w workflowPath propertiesPath).
Proof.
  unfold checkWorkflow.
  apply framed_bind.
  - apply framed_attempt, framed_validateWorkflowProperties.
  - intros [metadataErrors|e]; unfold readFile; repeat framed_step.
Qed.

(** What a file-system call leaves in the trace. *)
Lemma run_readFile w path t :
  readFile w path t = ((t ++ [EvReadFile path])%list, fs_readFile w path).
Proof. reflexivity. Qed.

Lemma run_access w path t :
  access w path t = ((t ++ [EvAccess path])%list, fs_access w path).
Proof. reflexivity. Qed.

Lemma run_readdir w folder t :
  readdir w folder t = ((t ++ [EvReaddir folder])%list, fs_readdir w folder).
Proof. reflexivity. Qed.

(* ================================================================= *)
(** * The metadata schema: lemmas *)

Lemma validate_object fields :
  validate (Some (JObj fields)) propertiesSchema =
    (validateSchema (stringSchema true) (own_property (Some (JObj fields)) "name")
       "instance.name"
     ++ validateSchema (stringSchema true)
          (own_property (Some (JObj fields)) "description") "instance.description"
     ++ validateSchema (stringSchema false)
          (own_property (Some (JObj fields)) "creator") "instance.creator"
     ++ validateSchema (stringSchema true)
          (own_property (Some (JObj fields)) "iconName") "instance.iconName"
     ++ validateSchema categoriesSchema
          (own_property (Some (JObj fields)) "categories") "instance.categories")%list.
Proof.
  unfold validate, propertiesSchema, stringSchema, categoriesSchema.
  cbn [validateSchema validateKeyword flat_map testType is_undefined app].
  rewrite !app_nil_r. reflexivity.
Qed.

Lemma validate_not_object v :
  (forall fields, v <> Some (JObj fields)) ->
  validate v propertiesSchema =
    if is_undefined v then []
    else [mkValidationError "instance" "is not of a type(s) object"].
Proof.
  intros Hv. destruct v as [[]|]; try reflexivity. now elim (Hv fields).
Qed.

Lemma stringSchema_property required v path e :
  In e (validateSchema (stringSchema required) v path) -> property e = path.
Proof.
  destruct v as [[]|], required; simpl; intuition (subst; reflexivity).
Qed.

Lemma stringSchema_undefined path :
  validateSchema (stringSchema true) undefined path =
    [mkValidationError path "is required"].
Proof. reflexivity. Qed.

(** The [items] loop finds no violation exactly when every element passes. *)
Lemma each_item_isEmpty validateItem path items i :
  (forall v p, isEmpty (validateItem (Some v) p) = is_string v) ->
  isEmpty (each_item validateItem path items i) = forallb is_string items.
Proof.
  intros Hitem. revert i.
  induction items as [|v items IH]; intros i; simpl.
  - reflexivity.
  - rewrite <- (IH (S i)), <- (Hitem v (path ++ index_suffix i)).
    now destruct (validateItem (Some v) (path ++ index_suffix i)).
Qed.

(** What the [categories] schema answers on every value. *)
Lemma categoriesSchema_spec v path :
  validateSchema categoriesSchema v path =
    if is_undefined v then [mkValidationError path "is required"]
    else if categories_ok v then []
    else [categories_error path].
Proof.
  destruct v as [[]|]; try reflexivity.
  unfold categoriesSchema, categories_ok.
  cbn [validateSchema validateKeyword flat_map testType is_undefined app
       existsb andb orb].
  rewrite !app_nil_r, each_item_isEmpty.
  - now destruct (forallb is_string items).
  - now intros [] p.
Qed.

Lemma categoriesSchema_property v path e :
  In e (validateSchema categoriesSchema v path) -> property e = path.
Proof.
  rewrite categoriesSchema_spec.
  destruct (is_undefined v); [|destruct (categories_ok v)]; simpl;
    intuition (subst; reflexivity).
Qed.

(** Every violation [propertiesSchema] can report is about the document or one
    of its five properties. *)
Lemma validate_property v e :
  In e (validate v propertiesSchema) ->
  In (property e)
    [ "instance"; "instance.name"; "instance.description"; "instance.creator";
      "instance.iconName"; "instance.categories" ].
Proof.
  destruct v as [[]|]; try solve [simpl; intuition (subst; simpl; auto)].
  rewrite validate_object. intros H.
  do 4 (apply in_app_or in H; destruct H as [H|H];
        [apply stringSchema_property in H; rewrite H; simpl; auto 10|]).
  apply categoriesSchema_property in H. rewrite H. simpl. auto 10.
Qed.

(** A schema violation never reads like the missing-icon message. *)
Lemma schema_errors_not_icon v iconName :
  ~ In (missing_icon iconName)
      (map ValidationError_toString (validate v propertiesSchema)).
Proof.
  intros H. apply in_map_iff in H. destruct H as [e [He Hin]].
  apply validate_property in Hin. unfold ValidationError_toString in He.
  simpl in Hin.
  repeat (destruct Hin as [Hin|Hin]; [rewrite <- Hin in He; discriminate|]).
  exact Hin.
Qed.

(* ================================================================= *)
(** * The Workflow Validator *)

Lemma run_validateWorkflowProperties_read_fails w propertiesPath e t :
  fs_readFile w propertiesPath = Throw e ->
  validateWorkflowProperties w propertiesPath t =
    ((t ++ [EvReadFile propertiesPath])%list, Throw e).
Proof.
  intros H. unfold validateWorkflowProperties, try_catch, bind.
  rewrite run_readFile, H. reflexivity.
Qed.

Lemma run_validateWorkflowProperties_parse_fails w propertiesPath content e t :
  fs_readFile w propertiesPath = Ok content ->
  JSON_parse w content = Throw e ->
  validateWorkflowProperties w propertiesPath t =
    ((t ++ [EvReadFile propertiesPath])%list, Throw e).
Proof.
  intros H1 H2. unfold validateWorkflowProperties, try_catch, bind.
  rewrite run_readFile, H1. unfold lift. rewrite H2. reflexivity.
Qed.

(** What [checkWorkflow] does once the metadata validation has ended. *)
Lemma run_checkWorkflow w workflowPath propertiesPath t :
  checkWorkflow w workflowPath propertiesPath t =
    match validateWorkflowProperties w propertiesPath t with
    | (t1, Throw e) =>
        (t1, Ok {| id := workflowPath; errors := [exn_toString e] |})
    | (t1, Ok metadataErrors) =>
        ((t1 ++ [EvReadFile workflowPath])%list,
         Ok {| id := workflowPath;
               errors :=
                 match fs_readFile w workflowPath with
                 | Throw e => push metadataErrors (exn_toString e)
                 | Ok content =>
                     match safeLoad w content with
                     | Throw e => push metadataErrors (exn_toString e)
                     | Ok workflow =>
                         match validate_workflow w workflow with
                         | Throw e => push metadataErrors (exn_toString e)
                         | Ok violations =>
                             (metadataErrors
                                ++ map ValidationError_toString violations)%list
                         end
                     end
                 end |})
    end.
Proof.
  unfold checkWorkflow, bind, attempt.
  destruct (validateWorkflowProperties w propertiesPath t) as [t1 [errs|e]].
  - rewrite run_readFile. unfold lift, ret, set_errors. simpl.
    destruct (fs_readFile w workflowPath) as [content|e]; [|reflexivity].
    destruct (safeLoad w content) as [workflow|e]; [|reflexivity].
    destruct (validate_workflow w workflow) as [violations|e]; reflexivity.
  - reflexivity.
Qed.

(** C1: [checkWorkflow] never throws.  Whatever the two paths and the world,
    it returns a record whose [id] is the workflow path, and every failure on
    the way (metadata validation, reading or parsing the body, validating the
    body) has become a string of the record's error list. *)
Theorem checkWorkflow_never_throws w workflowPath propertiesPath t :
  exists t' r,
    checkWorkflow w workflowPath propertiesPath t = (t', Ok r) /\
    id r = workflowPath /\
    match snd (validateWorkflowProperties w propertiesPath t) with
    | Throw e => errors r = [exn_toString e]
    | Ok metadataErrors =>
        match fs_readFile w workflowPath with
        | Throw e => errors r = (metadataErrors ++ [exn_toString e])%list
        | Ok content =>
            match safeLoad w content with
            | Throw e => errors r = (metadataErrors ++ [exn_toString e])%list
            | Ok workflow =>
                match validate_workflow w workflow with
                | Throw e =>
                    errors r = (metadataErrors ++ [exn_toString e])%list
                | Ok violations =>
                    errors r =
                      (metadataErrors
                         ++ map ValidationError_toString violations)%list
                end
            end
        end
    end.
Proof.
  rewrite run_checkWorkflow.
  destruct (validateWorkflowProperties w propertiesPath t) as [t1 [errs|e]];
    simpl.
  - eexists; eexists; split; [reflexivity|]. split; [reflexivity|]. simpl.
    destruct (fs_readFile w workflowPath) as [content|e]; [|reflexivity].
    destruct (safeLoad w content) as [workflow|e]; [|reflexivity].
    destruct (validate_workflow w workflow) as [violations|e]; reflexivity.
  - eexists; eexists; repeat split.
Qed.

(** C3: when loading or parsing the metadata document throws, the record has
    exactly one error, the stringified exception, and no schema violation
    beside it. *)
Theorem metadata_failure_sole_error w workflowPath propertiesPath e t :
  fs_readFile w propertiesPath = Throw e \/
  (exists content,
     fs_readFile w propertiesPath = Ok content /\
     JSON_parse w content = Throw e) ->
  checkWorkflow w workflowPath propertiesPath t =
    ((t ++ [EvReadFile propertiesPath])%list,
     Ok {| id := workflowPath; errors := [exn_toString e] |}).
Proof.
  intros H. rewrite run_checkWorkflow.
  destruct H as [H | [content [H1 H2]]].
  - now rewrite (run_validateWorkflowProperties_read_fails _ _ _ H).
  - now rewrite (run_validateWorkflowProperties_parse_fails _ _ _ H1 H2).
Qed.

(** C4: when the metadata validation returned its errors and the body does not
    parse, the record holds the metadata errors followed by exactly one more,
    the stringified parse exception; nothing is thrown. *)
Theorem unparsable_body_one_more_error
    w workflowPath propertiesPath metadataErrors content e t t1 :
  validateWorkflowProperties w propertiesPath t = (t1, Ok metadataErrors) ->
  fs_readFile w workflowPath = Ok content ->
  safeLoad w content = Throw e ->
  checkWorkflow w workflowPath propertiesPath t =
    ((t1 ++ [EvReadFile workflowPath])%list,
     Ok {| id := workflowPath;
           errors := (metadataErrors ++ [exn_toString e])%list |}).
Proof.
  intros Hm Hr Hp. rewrite run_checkWorkflow, Hm, Hr, Hp. reflexivity.
Qed.

Lemma checkWorkflow_total w workflowPath propertiesPath t :
  exists t' r, checkWorkflow w workflowPath propertiesPath t = (t', Ok r).
Proof.
  rewrite run_checkWorkflow.
  destruct (validateWorkflowProperties w propertiesPath t) as [t1 [errs|e]];
    eexists; eexists; reflexivity.
Qed.

(* ================================================================= *)
(** * The Metadata Validator *)

(** What [validateWorkflowProperties] does on a document that was read and
    parsed, by the value of its [iconName]. *)
Lemma run_validateWorkflowProperties
    w propertiesPath content properties iconName t :
  fs_readFile w propertiesPath = Ok content ->
  JSON_parse w content = Ok properties ->
  get_property properties "iconName" = Ok iconName ->
  validateWorkflowProperties w propertiesPath t =
    let errors :=
      map ValidationError_toString
        (validate (Some properties) propertiesSchema) in
    let t1 := (t ++ [EvReadFile propertiesPath])%list in
    if truthy iconName then
      match iconName with
      | Some (JStr s) =>
          if startsWith s "octicon" then (t1, Ok errors)
          else
            ((t1 ++ [EvAccess (icon_path s)])%list,
             Ok match fs_access w (icon_path s) with
                | Ok _ => errors
                | Throw _ => push errors (missing_icon s)
                end)
      | _ =>
          (t1, Throw (TypeError
                        "properties.iconName.startsWith is not a function"))
      end
    else (t1, Ok errors).
Proof.
  intros Hr Hp Hi. unfold validateWorkflowProperties, try_catch, bind.
  rewrite run_readFile, Hr. unfold lift. rewrite Hp, Hi. cbv zeta.
  destruct (truthy iconName); [|reflexivity].
  destruct iconName as [[]|]; try reflexivity.
  destruct (startsWith s "octicon"); [reflexivity|].
  cbn [negb]. rewrite run_access.
  destruct (fs_access w (icon_path s)); reflexivity.
Qed.

Lemma startsWith_nonempty s prefix :
  prefix <> "" -> startsWith s prefix = true -> s <> "".
Proof.
  intros Hp H ->. destruct prefix; [now elim Hp | discriminate].
Qed.

Lemma truthy_string s : s <> "" -> truthy (Some (JStr s)) = true.
Proof.
  intros H. simpl. destruct (String.eqb_spec s ""); [now elim H | reflexivity].
Qed.

(** C5, amended: for a metadata document whose [iconName] is a non-empty
    string that does not start with the built-in prefix, the validator looks
    for [<iconName>.svg] in the icons directory; when the file is not there its
    result includes the error naming the icon, and when it is there the result
    holds no missing-icon error at all. *)
Theorem icon_existence_check
    w propertiesPath content properties iconName t :
  fs_readFile w propertiesPath = Ok content ->
  JSON_parse w content = Ok properties ->
  get_property properties "iconName" = Ok (Some (JStr iconName)) ->
  iconName <> "" ->
  startsWith iconName "octicon" = false ->
  exists errs,
    validateWorkflowProperties w propertiesPath t =
      ((t ++ [EvReadFile propertiesPath; EvAccess (icon_path iconName)])%list,
       Ok errs) /\
    ((exists e, fs_access w (icon_path iconName) = Throw e) ->
     In (missing_icon iconName) errs) /\
    (fs_access w (icon_path iconName) = Ok tt ->
     forall name, ~ In (missing_icon name) errs).
Proof.
  intros Hr Hp Hi Hne Hsw.
  rewrite (run_validateWorkflowProperties _ _ t Hr Hp Hi). cbv zeta.
  rewrite (truthy_string Hne), Hsw, <- app_assoc. simpl.
  eexists. split; [reflexivity|]. split.
  - intros [e He]. rewrite He. unfold push. apply in_or_app. right. now left.
  - intros Hok name. rewrite Hok. apply schema_errors_not_icon.
Qed.

(** C6: for a metadata document whose [iconName] starts with the built-in
    prefix, the validator makes no [fs.access] call (the file read is the only
    event) and returns the schema violations alone, with no icon error in them,
    whatever the icons directory holds. *)
Theorem builtin_icon_skips_check
    w propertiesPath content properties iconName t :
  fs_readFile w propertiesPath = Ok content ->
  JSON_parse w content = Ok properties ->
  get_property properties "iconName" = Ok (Some (JStr iconName)) ->
  startsWith iconName "octicon" = true ->
  validateWorkflowProperties w propertiesPath t =
    ((t ++ [EvReadFile propertiesPath])%list,
     Ok (map ValidationError_toString
           (validate (Some properties) propertiesSchema))) /\
  forall name,
    ~ In (missing_icon name)
        (map ValidationError_toString
           (validate (Some properties) propertiesSchema)).
Proof.
  intros Hr Hp Hi Hsw. split.
  - rewrite (run_validateWorkflowProperties _ _ t Hr Hp Hi). cbv zeta.
    rewrite truthy_string, Hsw; [reflexivity|].
    apply (startsWith_nonempty (prefix := "octicon")); [discriminate|exact Hsw].
  - intros name. apply schema_errors_not_icon.
Qed.

(** C10: when [iconName] is there but falsy (the empty string, [0], [false],
    [null]), the validator makes no [fs.access] call and returns the schema
    violations alone, with no missing-icon error, although the empty string
    does not start with the built-in prefix. *)
Theorem falsy_icon_skips_check
    w propertiesPath content fields iconName t :
  fs_readFile w propertiesPath = Ok content ->
  JSON_parse w content = Ok (JObj fields) ->
  lookup "iconName" fields = Some iconName ->
  truthy (Some iconName) = false ->
  startsWith "" "octicon" = false /\
  validateWorkflowProperties w propertiesPath t =
    ((t ++ [EvReadFile propertiesPath])%list,
     Ok (map ValidationError_toString
           (validate (Some (JObj fields)) propertiesSchema))) /\
  forall name,
    ~ In (missing_icon name)
        (map ValidationError_toString
           (validate (Some (JObj fields)) propertiesSchema)).
Proof.
  intros Hr Hp Hi Hf. split; [reflexivity|]. split.
  - assert (Hg : get_property (JObj fields) "iconName" = Ok (Some iconName))
      by (simpl; now rewrite Hi).
    rewrite (run_validateWorkflowProperties _ _ t Hr Hp Hg). cbv zeta.
    now rewrite Hf.
  - intros name. apply schema_errors_not_icon.
Qed.

(** X19: where the validator does return, a missing required field is
    reported.  For a metadata document that parses to an object lacking one of
    [name], [description], [iconName], and whose [iconName] is absent, falsy or
    a string, the validator returns a non-empty error list that contains the
    "is required" violation of the missing field. *)
Theorem missing_required_field
    w propertiesPath content fields field t :
  fs_readFile w propertiesPath = Ok content ->
  JSON_parse w content = Ok (JObj fields) ->
  In field ["name"; "description"; "iconName"] ->
  lookup field fields = undefined ->
  (truthy (lookup "iconName" fields) = false \/
   exists s, lookup "iconName" fields = Some (JStr s)) ->
  exists t' errs,
    validateWorkflowProperties w propertiesPath t = (t', Ok errs) /\
    errs <> [] /\
    In (ValidationError_toString (required_error field)) errs.
Proof.
  intros Hr Hp Hfield Hmiss Hicon.
  assert (Hg : get_property (JObj fields) "iconName"
               = Ok (lookup "iconName" fields)) by reflexivity.
  assert (Hin : In (ValidationError_toString (required_error field))
                  (map ValidationError_toString
                     (validate (Some (JObj fields)) propertiesSchema))).
  { apply in_map. rewrite validate_object.
    cbn [own_property].
    destruct Hfield as [<-|[<-|[<-|[]]]]; rewrite Hmiss;
      rewrite stringSchema_undefined; unfold required_error;
      repeat (apply in_or_app; first [left; now left | right]). }
  rewrite (run_validateWorkflowProperties _ _ t Hr Hp Hg). cbv zeta.
  assert (Hne : forall (l : list string) x, In x l -> l <> [])
    by (intros l x Hx ->; exact Hx).
  destruct Hicon as [Hf | [s Hs]].
  - rewrite Hf. eexists; eexists; split; [reflexivity|]. eauto.
  - rewrite Hs. destruct (truthy (Some (JStr s)));
      [destruct (startsWith s "octicon")|];
      eexists; eexists; (split; [reflexivity|]); eauto.
    destruct (fs_access w (icon_path s)); [eauto|].
    unfold push. split.
    + apply (Hne _ (ValidationError_toString (required_error field))).
      apply in_or_app. now left.
    + apply in_or_app. now left.
Qed.

(** C8: in a metadata document, a [categories] property that is an array of
    strings or [null] brings no schema violation about [categories]; any other
    value brings at least one. *)
Theorem categories_array_or_null fields v :
  lookup "categories" fields = Some v ->
  (categories_ok (Some v) = true ->
   forall e, In e (validate (Some (JObj fields)) propertiesSchema) ->
             String.prefix "instance.categories" (property e) = false) /\
  (categories_ok (Some v) = false ->
   In (categories_error "instance.categories")
      (validate (Some (JObj fields)) propertiesSchema)).
Proof.
  intros Hv. rewrite validate_object. cbn [own_property]. rewrite Hv.
  rewrite categoriesSchema_spec. cbn [is_undefined]. split; intros Hok.
  - rewrite Hok, app_nil_r. intros e H.
    do 3 (apply in_app_or in H; destruct H as [H|H];
          [apply stringSchema_property in H; now rewrite H|]).
    apply stringSchema_property in H. now rewrite H.
  - rewrite Hok. repeat (apply in_or_app; right). now left.
Qed.

(* ================================================================= *)
(** * The Directory Scanner *)

Lemma checkWorkflow_returns w workflowPath propertiesPath :
  exists r, outcome (checkWorkflow w workflowPath propertiesPath) = Ok r.
Proof.
  destruct (checkWorkflow_total w workflowPath propertiesPath [])
    as [t' [r H]].
  exists r. unfold outcome. now rewrite H.
Qed.

(** The inner loop never throws: it appends to [result] the records with
    errors among those of the regular files of [dir], in listing order. *)
Lemma scan_entries_spec w folder dir :
  forall result t,
  exists tr records,
    Forall2 (record_of w)
      (map (fun e => (workflowFilePath w folder e, propertiesFilePath w folder e))
         (filter isFile dir))
      records /\
    scan_entries w folder dir result t =
      ((t ++ tr)%list, Ok (result ++ filter has_errors records)%list).
Proof.
  induction dir as [|e dir IH]; intros result t; simpl.
  - exists [], []. split; [constructor|].
    unfold ret. now rewrite !app_nil_r.
  - destruct (isFile e) eqn:Hfile.
    + destruct (checkWorkflow_returns w (workflowFilePath w folder e)
                  (propertiesFilePath w folder e)) as [r Hr].
      unfold bind.
      rewrite (framed_checkWorkflow w _ _ t), Hr.
      set (t1 := (t ++ events _)%list).
      destruct (IH (if Nat.ltb 0 (List.length (errors r))
                    then push result r else result) t1)
        as [tr [records [Hrec Hrun]]].
      exists (events (checkWorkflow w (workflowFilePath w folder e)
                        (propertiesFilePath w folder e)) ++ tr)%list,
             (r :: records).
      split; [constructor; [exact Hr | exact Hrec]|].
      rewrite app_assoc. fold t1.
      simpl. unfold has_errors at 1.
      destruct (errors r) as [|x xs]; simpl in *.
      * exact Hrun.
      * rewrite Hrun. unfold push. now rewrite <- app_assoc.
    + apply IH.
Qed.

Lemma scan_folders_spec w folders :
  Forall (listable w) folders ->
  forall result t,
  exists tr records,
    Forall2 (record_of w) (discovered w folders) records /\
    scan_folders w folders result t =
      ((t ++ tr)%list, Ok (result ++ filter has_errors records)%list).
Proof.
  induction 1 as [|folder folders [dir Hdir] _ IH]; intros result t; simpl.
  - exists [], []. split; [constructor|].
    unfold ret. now rewrite !app_nil_r.
  - unfold bind. rewrite run_readdir, Hdir.
    destruct (scan_entries_spec w folder dir result (t ++ [EvReaddir folder]))
      as [tr1 [records1 [Hrec1 Hrun1]]].
    rewrite Hrun1.
    destruct (IH (result ++ filter has_errors records1)%list
                ((t ++ [EvReaddir folder]) ++ tr1)%list)
      as [tr2 [records2 [Hrec2 Hrun2]]].
    exists ([EvReaddir folder] ++ tr1 ++ tr2)%list, (records1 ++ records2)%list.
    split.
    + apply Forall2_app; [|exact Hrec2].
      unfold workflow_files. now rewrite Hdir.
    + rewrite Hrun2, filter_app, !app_assoc. reflexivity.
Qed.

Lemma scan_folders_throws w pre folder post e :
  Forall (listable w) pre ->
  fs_readdir w folder = Throw e ->
  forall result t,
  exists tr,
    scan_folders w (pre ++ folder :: post) result t =
      ((t ++ tr ++ [EvReaddir folder])%list, Throw e).
Proof.
  intros Hpre Hfolder.
  induction Hpre as [|first pre [dir Hdir] _ IH]; intros result t; simpl.
  - exists []. unfold bind. now rewrite run_readdir, Hfolder.
  - unfold bind. rewrite run_readdir, Hdir.
    destruct (scan_entries_spec w first dir result (t ++ [EvReaddir first]))
      as [tr1 [records1 [_ Hrun1]]].
    rewrite Hrun1.
    destruct (IH (result ++ filter has_errors records1)%list
                ((t ++ [EvReaddir first]) ++ tr1)%list) as [tr2 Hrun2].
    exists ([EvReaddir first] ++ tr1 ++ tr2)%list.
    rewrite Hrun2, !app_assoc. reflexivity.
Qed.

(** Every folder can be listed, or there is a first one that cannot. *)
Lemma listable_or_first_failure w folders :
  Forall (listable w) folders \/
  exists pre folder post e,
    folders = (pre ++ folder :: post)%list /\
    Forall (listable w) pre /\
    fs_readdir w folder = Throw e.
Proof.
  induction folders as [|folder folders IH].
  - left. constructor.
  - destruct (fs_readdir w folder) as [dir|e] eqn:Hdir.
    + destruct IH as [Hall | [pre [f [post [e [-> [Hpre Hf]]]]]]].
      * left. constructor; [now exists dir | exact Hall].
      * right. exists (folder :: pre), f, post, e.
        repeat split; [|exact Hf]. constructor; [now exists dir | exact Hpre].
    + right. exists [], folder, folders, e. repeat split; [constructor|exact Hdir].
Qed.

(** C2: [checkWorkflows] returns exactly the records with a non-empty error
    list, in discovery order (folder after folder, listing order inside a
    folder); the records without errors are left out.  It does return when
    every folder can be listed, and whatever it returns is that list. *)
Theorem checkWorkflows_keeps_errored w folders t :
  (Forall (listable w) folders ->
   exists t' records,
     Forall2 (record_of w) (discovered w folders) records /\
     checkWorkflows w folders t = (t', Ok (filter has_errors records))) /\
  (forall t' result,
     checkWorkflows w folders t = (t', Ok result) ->
     exists records,
       Forall2 (record_of w) (discovered w folders) records /\
       result = filter has_errors records).
Proof.
  assert (Hreturns :
    Forall (listable w) folders ->
    exists t' records,
      Forall2 (record_of w) (discovered w folders) records /\
      checkWorkflows w folders t = (t', Ok (filter has_errors records))).
  { intros H.
    destruct (scan_folders_spec H [] t) as [tr [records [Hrec Hrun]]].
    exists (t ++ tr)%list, records. split; [exact Hrec|]. exact Hrun. }
  split; [exact Hreturns|].
  intros t' result Hrun.
  destruct (listable_or_first_failure w folders)
    as [Hall | [pre [folder [post [e [-> [Hpre Hfolder]]]]]]].
  - destruct (Hreturns Hall) as [t'' [records [Hrec Hrun']]].
    rewrite Hrun' in Hrun. injection Hrun as _ <-.
    exists records. split; [exact Hrec | reflexivity].
  - destruct (@scan_folders_throws w pre folder post e Hpre Hfolder [] t)
      as [tr Hthrows].
    unfold checkWorkflows in Hrun. rewrite Hthrows in Hrun. discriminate Hrun.
Qed.

(** C9: when a folder cannot be listed, the exception of [fs.readdir] leaves
    [checkWorkflows] as it is: the scan stops at that listing, the folders
    after it are never read, and no record is returned.  Only [main] catches
    it, logs it and marks the run as failed. *)
Theorem unlistable_folder_aborts_scan w pre folder post e t :
  Forall (listable w) pre ->
  fs_readdir w folder = Throw e ->
  exists tr,
    checkWorkflows w (pre ++ folder :: post) t =
      ((t ++ tr ++ [EvReaddir folder])%list, Throw e) /\
    (settings_folders w = Ok (pre ++ folder :: post)%list ->
     main w t =
       ((t ++ tr ++
           [ EvReaddir folder;
             EvError ("Unhandled error while syncing workflows: "
                        ++ exn_toString e);
             EvSetFailed "Unhandled error" ])%list,
        Ok tt)).
Proof.
  intros Hpre Hfolder.
  destruct (@scan_folders_throws w pre folder post e Hpre Hfolder [] t)
    as [tr Hrun].
  exists tr. split; [exact Hrun|].
  intros Hsettings. unfold main, try_catch, bind, lift. rewrite Hsettings.
  fold (checkWorkflows w (pre ++ folder :: post)).
  unfold checkWorkflows. rewrite Hrun.
  unfold error, setFailed, emit. rewrite <- !app_assoc. reflexivity.
Qed.

(* ================================================================= *)
(** * The sample repository, run *)

Example sample_scan :
  snd (checkWorkflows Sample.world ["ci"; "automation"] []) =
    Ok [ {| id := "ci/bad.yml";
            errors := ["TypeError: properties.iconName.startsWith is not a function"] |};
         {| id := "ci/blank.yml";
            errors := ["instance is not of a type(s) object"] |};
         {| id := "automation/greet.yml";
            errors :=
              [ "instance.description is required";
                "instance.categories is not any of [subschema 0],[subschema 1]";
                "YAMLException: unexpected end of the stream within a flow collection" ] |};
         {| id := "automation/label.yml";
            errors := ["No icon named label found"] |};
         {| id := "automation/stale.yml";
            errors :=
              ["Error: ENOENT: no such file or directory, open 'automation/properties/stale.properties.json'"] |} ].
Proof. vm_compute. reflexivity. Qed.

Lemma metadata_failure_sole_error_witness :
  checkWorkflow Sample.world "automation/stale.yml"
    "automation/properties/stale.properties.json" [] =
    ([EvReadFile "automation/properties/stale.properties.json"],
     Ok {| id := "automation/stale.yml";
           errors :=
             [exn_toString
                (Sample.ENOENT "open"
                   "automation/properties/stale.properties.json")] |}).
Proof.
  apply (@metadata_failure_sole_error Sample.world "automation/stale.yml"
           "automation/properties/stale.properties.json"
           (Sample.ENOENT "open" "automation/properties/stale.properties.json")
           []).
  left. reflexivity.
Defined.

Lemma unparsable_body_one_more_error_witness :
  checkWorkflow Sample.world "automation/greet.yml"
    "automation/properties/greet.properties.json" [] =
    ([ EvReadFile "automation/properties/greet.properties.json";
       EvAccess "../../icons/greet.svg";
       EvReadFile "automation/greet.yml" ],
     Ok {| id := "automation/greet.yml";
           errors :=
             [ "instance.description is required";
               "instance.categories is not any of [subschema 0],[subschema 1]";
               "YAMLException: unexpected end of the stream within a flow collection" ] |}).
Proof.
  apply (@unparsable_body_one_more_error Sample.world "automation/greet.yml"
           "automation/properties/greet.properties.json"
           [ "instance.description is required";
             "instance.categories is not any of [subschema 0],[subschema 1]" ]
           "on: ["
           (YAMLException
              "YAMLException: unexpected end of the stream within a flow collection")
           []
           [ EvReadFile "automation/properties/greet.properties.json";
             EvAccess "../../icons/greet.svg" ]);
    reflexivity.
Defined.

Lemma icon_existence_check_witness :
  exists errs,
    validateWorkflowProperties Sample.world
      "automation/properties/label.properties.json" [] =
      ([ EvReadFile "automation/properties/label.properties.json";
         EvAccess (icon_path "label") ], Ok errs) /\
    ((exists e, fs_access Sample.world (icon_path "label") = Throw e) ->
     In (missing_icon "label") errs) /\
    (fs_access Sample.world (icon_path "label") = Ok tt ->
     forall name, ~ In (missing_icon name) errs).
Proof.
  apply (@icon_existence_check Sample.world
           "automation/properties/label.properties.json"
           Sample.label_properties
           (JObj [ ("name", JStr "Label"); ("description", JStr "Labels");
                   ("iconName", JStr "label"); ("categories", JNull) ])
           "label" []);
    try reflexivity.
  discriminate.
Defined.

(** C5, as the specification words it, fails on the document whose [iconName]
    is the empty string: no [.svg] is in the icons directory, and the
    validator returns no error at all. *)
Lemma icon_claim_fails_on_empty_name :
  ~ icon_claim_as_stated Sample.world "ci/properties/blank.properties.json".
Proof.
  intros H.
  destruct (H Sample.blank_properties
              (JObj [ ("name", JStr "Blank"); ("description", JStr "Empty");
                      ("iconName", JStr "");
                      ("categories", JArr [JStr "CI"]) ])
              "" eq_refl eq_refl eq_refl eq_refl)
    as [t [errs [Hrun [Hmissing _]]]].
  vm_compute in Hrun. inversion Hrun; subst.
  apply Hmissing. eexists. reflexivity.
Qed.

Lemma builtin_icon_skips_check_witness :
  validateWorkflowProperties Sample.world
    "ci/properties/node.properties.json" [] =
    ([EvReadFile "ci/properties/node.properties.json"], Ok []).
Proof.
  apply (@builtin_icon_skips_check Sample.world
           "ci/properties/node.properties.json" Sample.node_properties
           (JObj [ ("name", JStr "Node"); ("description", JStr "Build");
                   ("iconName", JStr "octicon package");
                   ("categories", JNull) ])
           "octicon package" []);
    reflexivity.
Defined.

Lemma falsy_icon_skips_check_witness :
  validateWorkflowProperties Sample.world
    "ci/properties/blank.properties.json" [] =
    ([EvReadFile "ci/properties/blank.properties.json"], Ok []).
Proof.
  apply (@falsy_icon_skips_check Sample.world
           "ci/properties/blank.properties.json" Sample.blank_properties
           [ ("name", JStr "Blank"); ("description", JStr "Empty");
             ("iconName", JStr ""); ("categories", JArr [JStr "CI"]) ]
           (JStr "") []);
    reflexivity.
Defined.

Lemma missing_required_field_witness :
  exists t' errs,
    validateWorkflowProperties Sample.world
      "automation/properties/greet.properties.json" [] = (t', Ok errs) /\
    errs <> [] /\
    In "instance.description is required" errs.
Proof.
  apply (@missing_required_field Sample.world
           "automation/properties/greet.properties.json"
           Sample.greet_properties
           [ ("name", JStr "Greet"); ("iconName", JStr "greet");
             ("categories", JStr "Automation") ]
           "description" []);
    try reflexivity.
  - simpl. auto.
  - right. exists "greet". reflexivity.
Defined.

(** C7, as the specification words it, fails on the document that has no
    [name] and the number 5 for [iconName]: the validator returns nothing, it
    throws a [TypeError]. *)
Lemma required_claim_fails_on_number_icon :
  ~ required_claim_as_stated Sample.world "ci/properties/bad.properties.json".
Proof.
  intros H.
  destruct (H Sample.bad_properties
              (JObj [ ("description", JStr "Bad"); ("iconName", JNum 5%float);
                      ("categories", JNull) ])
              "name" eq_refl eq_refl (or_introl eq_refl) eq_refl)
    as [t [errs [Hrun _]]].
  vm_compute in Hrun. discriminate Hrun.
Qed.

(** C7: the code on the metadata document
    [{description: "Bad", iconName: 5, categories: null}], which has no
    [name].  Line 76 has computed the violation "instance.name is required",
    but the validator returns no list: [startsWith] is called on the number,
    the [TypeError] leaves [validateWorkflowProperties], and the record of the
    file holds that error alone. *)
Theorem missing_name_lost_on_number_icon :
  fs_readFile Sample.world "ci/properties/bad.properties.json"
    = Ok Sample.bad_properties /\
  JSON_parse Sample.world Sample.bad_properties
    = Ok (JObj [ ("description", JStr "Bad"); ("iconName", JNum 5%float);
                 ("categories", JNull) ]) /\
  schema_errors
    (JObj [ ("description", JStr "Bad"); ("iconName", JNum 5%float);
            ("categories", JNull) ])
    = [ "instance.name is required";
        "instance.iconName is not of a type(s) string" ] /\
  validateWorkflowProperties Sample.world
    "ci/properties/bad.properties.json" [] =
    ([EvReadFile "ci/properties/bad.properties.json"],
     Throw (TypeError "properties.iconName.startsWith is not a function")) /\
  checkWorkflow Sample.world "ci/bad.yml"
    "ci/properties/bad.properties.json" [] =
    ([EvReadFile "ci/properties/bad.properties.json"],
     Ok {| id := "ci/bad.yml";
           errors :=
             ["TypeError: properties.iconName.startsWith is not a function"] |}).
Proof.
  split; [reflexivity|]. split; [reflexivity|].
  split; [vm_compute; reflexivity|].
  split; vm_compute; reflexivity.
Qed.

Lemma categories_array_or_null_witness :
  (categories_ok (Some (JArr [JStr "CI"])) = true ->
   forall e,
     In e (validate
             (Some (JObj [ ("name", JStr "Blank"); ("description", JStr "Empty");
                           ("iconName", JStr "");
                           ("categories", JArr [JStr "CI"]) ]))
             propertiesSchema) ->
     String.prefix "instance.categories" (property e) = false) /\
  (categories_ok (Some (JArr [JStr "CI"])) = false ->
   In (categories_error "instance.categories")
      (validate
         (Some (JObj [ ("name", JStr "Blank"); ("description", JStr "Empty");
                       ("iconName", JStr "");
                       ("categories", JArr [JStr "CI"]) ]))
         propertiesSchema)).
Proof.
  apply (@categories_array_or_null
           [ ("name", JStr "Blank"); ("description", JStr "Empty");
             ("iconName", JStr ""); ("categories", JArr [JStr "CI"]) ]
           (JArr [JStr "CI"])).
  reflexivity.
Defined.

Lemma checkWorkflows_keeps_errored_witness :
  exists t' records,
    Forall2 (record_of Sample.world)
      (discovered Sample.world ["ci"; "automation"]) records /\
    checkWorkflows Sample.world ["ci"; "automation"] [] =
      (t', Ok (filter has_errors records)).
Proof.
  apply (proj1 (@checkWorkflows_keeps_errored Sample.world
                  ["ci"; "automation"] [])).
  repeat constructor; eexists; reflexivity.
Defined.

Lemma unlistable_folder_aborts_scan_witness :
  exists tr,
    checkWorkflows Sample.misconfigured ["ci"; "missing"; "automation"] [] =
      ((tr ++ [EvReaddir "missing"])%list,
       Throw (Sample.ENOENT "scandir" "missing")) /\
    (settings_folders Sample.misconfigured
       = Ok ["ci"; "missing"; "automation"] ->
     main Sample.misconfigured [] =
       ((tr ++
           [ EvReaddir "missing";
             EvError ("Unhandled error while syncing workflows: "
                        ++ exn_toString (Sample.ENOENT "scandir" "missing"));
             EvSetFailed "Unhandled error" ])%list,
        Ok tt)).
Proof.
  apply (@unlistable_folder_aborts_scan Sample.misconfigured
           ["ci"] "missing" ["automation"]
           (Sample.ENOENT "scandir" "missing") []).
  - repeat constructor; eexists; reflexivity.
  - reflexivity.
Defined.

(* ================================================================= *)
(** * Further properties of the metadata schema *)

Lemma isEmpty_app A (l1 l2 : list A) :
  isEmpty (l1 ++ l2)%list = isEmpty l1 && isEmpty l2.
Proof. now destruct l1. Qed.

Lemma isEmpty_true A (l : list A) : isEmpty l = true <-> l = [].
Proof. destruct l; simpl; split; congruence. Qed.

Lemma stringSchema_isEmpty required v path :
  isEmpty (validateSchema (stringSchema required) v path) =
    (is_undefined v && negb required) || is_string_value v.
Proof. now destruct v as [[]|], required. Qed.

Lemma categoriesSchema_isEmpty v path :
  isEmpty (validateSchema categoriesSchema v path) = categories_ok v.
Proof.
  rewrite categoriesSchema_spec.
  destruct v as [j|]; [|reflexivity]. cbn [is_undefined].
  now destruct (categories_ok (Some j)).
Qed.

Lemma validate_isEmpty doc :
  isEmpty (validate (Some doc) propertiesSchema) = well_formed doc.
Proof.
  destruct doc; try reflexivity.
  rewrite validate_object. cbn [own_property well_formed].
  rewrite !isEmpty_app, !stringSchema_isEmpty, categoriesSchema_isEmpty.
  cbn [negb]. rewrite !andb_false_r, !andb_true_r, !orb_false_l.
  now rewrite !andb_assoc.
Qed.

(** X5: [propertiesSchema] reports nothing exactly on the well-formed
    documents. *)
Theorem schema_accepts_well_formed doc :
  validate (Some doc) propertiesSchema = [] <-> well_formed doc = true.
Proof.
  split; intros H.
  - rewrite <- validate_isEmpty, H. reflexivity.
  - apply isEmpty_true. rewrite validate_isEmpty. exact H.
Qed.

(** X6: a [name], [description], [creator] or [iconName] that is there but is
    not a string brings the type violation of that property. *)
Theorem non_string_property_reported fields field v :
  In field ["name"; "description"; "creator"; "iconName"] ->
  lookup field fields = Some v ->
  is_string v = false ->
  In (type_error field) (validate (Some (JObj fields)) propertiesSchema).
Proof.
  intros Hfield Hv Hs. rewrite validate_object. cbn [own_property].
  assert (Hone : forall required path,
            In (mkValidationError path "is not of a type(s) string")
               (validateSchema (stringSchema required) (Some v) path)).
  { intros required path. destruct v; try discriminate; now left. }
  destruct Hfield as [<-|[<-|[<-|[<-|[]]]]]; rewrite Hv; unfold type_error;
    repeat (apply in_or_app; first [left; now apply Hone | right]).
Qed.

Lemma lookup_other key k v fields1 fields2 :
  key <> k ->
  lookup k (fields1 ++ (key, v) :: fields2)%list =
    lookup k (fields1 ++ fields2)%list.
Proof.
  intros Hk. induction fields1 as [|[k1 v1] fields1 IH]; simpl.
  - destruct (String.eqb_spec key k); [now elim Hk | reflexivity].
  - now rewrite IH.
Qed.

(** X7: a property the schema does not name changes nothing: the document is
    validated as if it were not there. *)
Theorem unknown_property_ignored key v fields1 fields2 :
  ~ In key property_names ->
  validate (Some (JObj (fields1 ++ (key, v) :: fields2)%list)) propertiesSchema =
    validate (Some (JObj (fields1 ++ fields2)%list)) propertiesSchema.
Proof.
  intros Hkey. rewrite !validate_object. cbn [own_property].
  rewrite !(@lookup_other key _ v fields1 fields2);
    [reflexivity | | | | |];
    intros ->; apply Hkey; simpl; auto 10.
Qed.

(* ================================================================= *)
(** * Further properties of the Metadata Validator *)

Lemma run_validateWorkflowProperties_null w propertiesPath content t :
  fs_readFile w propertiesPath = Ok content ->
  JSON_parse w content = Ok JNull ->
  validateWorkflowProperties w propertiesPath t =
    ((t ++ [EvReadFile propertiesPath])%list,
     Throw (TypeError "Cannot read property 'iconName' of null")).
Proof.
  intros Hr Hp. unfold validateWorkflowProperties, try_catch, bind.
  rewrite run_readFile, Hr. unfold lift. rewrite Hp. reflexivity.
Qed.

(** X2: a metadata document that is [null] makes [properties.iconName] throw:
    the record of the file holds that [TypeError] alone, the violation the
    schema found is not in it, and the workflow file is not read. *)
Theorem null_document_sole_error w workflowPath propertiesPath content t :
  fs_readFile w propertiesPath = Ok content ->
  JSON_parse w content = Ok JNull ->
  checkWorkflow w workflowPath propertiesPath t =
    ((t ++ [EvReadFile propertiesPath])%list,
     Ok {| id := workflowPath;
           errors := ["TypeError: Cannot read property 'iconName' of null"] |}).
Proof.
  intros Hr Hp.
  now rewrite run_checkWorkflow, (@run_validateWorkflowProperties_null w propertiesPath content t Hr Hp).
Qed.

Lemma run_validateWorkflowProperties_not_string
    w propertiesPath content properties iconName t :
  fs_readFile w propertiesPath = Ok content ->
  JSON_parse w content = Ok properties ->
  get_property properties "iconName" = Ok iconName ->
  truthy iconName = true ->
  is_string_value iconName = false ->
  validateWorkflowProperties w propertiesPath t =
    ((t ++ [EvReadFile propertiesPath])%list,
     Throw (TypeError "properties.iconName.startsWith is not a function")).
Proof.
  intros Hr Hp Hi Ht Hs.
  rewrite (@run_validateWorkflowProperties w propertiesPath content _ _ t
             Hr Hp Hi).
  cbv zeta.
  rewrite Ht. destruct iconName as [[]|]; try reflexivity. discriminate.
Qed.

(** X3: an [iconName] that is truthy and not a string (a number, [true], an
    array, an object) makes the validator throw a [TypeError] without looking
    for an icon; the record of the file holds that error alone, the schema
    violations are not in it, and the workflow file is not read. *)
Theorem non_string_icon_sole_error
    w workflowPath propertiesPath content properties iconName t :
  fs_readFile w propertiesPath = Ok content ->
  JSON_parse w content = Ok properties ->
  get_property properties "iconName" = Ok iconName ->
  truthy iconName = true ->
  is_string_value iconName = false ->
  checkWorkflow w workflowPath propertiesPath t =
    ((t ++ [EvReadFile propertiesPath])%list,
     Ok {| id := workflowPath;
           errors :=
             ["TypeError: properties.iconName.startsWith is not a function"] |}).
Proof.
  intros Hr Hp Hi Ht Hs.
  now rewrite run_checkWorkflow,
    (@run_validateWorkflowProperties_not_string
       w propertiesPath content properties iconName t Hr Hp Hi Ht Hs).
Qed.

(** X4: a metadata document that is an array, a string, a number or a boolean
    is answered with the one violation that it is not an object: no property
    is looked at and no icon is looked for. *)
Theorem non_object_document w propertiesPath content properties t :
  fs_readFile w propertiesPath = Ok content ->
  JSON_parse w content = Ok properties ->
  properties <> JNull ->
  (forall fields, properties <> JObj fields) ->
  validateWorkflowProperties w propertiesPath t =
    ((t ++ [EvReadFile propertiesPath])%list,
     Ok ["instance is not of a type(s) object"]).
Proof.
  intros Hr Hp Hnull Hobj.
  assert (Hi : get_property properties "iconName" = Ok undefined).
  { destruct properties; try reflexivity;
      [now elim Hnull | now elim (Hobj fields)]. }
  rewrite (@run_validateWorkflowProperties w propertiesPath content _ _ t
             Hr Hp Hi).
  cbv zeta.
  cbn [truthy undefined].
  rewrite validate_not_object; [reflexivity|].
  intros fields [= ->]. now elim (Hobj fields).
Qed.

(** X9: when the validator returns, its list is the schema violations in
    their order, followed by at most one more string: the missing-icon error
    of the document's own [iconName], whose file could not be accessed. *)
Theorem validator_result_shape w propertiesPath content properties t t' errs :
  fs_readFile w propertiesPath = Ok content ->
  JSON_parse w content = Ok properties ->
  validateWorkflowProperties w propertiesPath t = (t', Ok errs) ->
  errs = schema_errors properties \/
  exists s,
    own_property (Some properties) "iconName" = Some (JStr s) /\
    icon_found w s = false /\
    errs = (schema_errors properties ++ [missing_icon s])%list.
Proof.
  intros Hr Hp Hrun.
  destruct properties;
    try (rewrite (@run_validateWorkflowProperties w propertiesPath content _
                    undefined t Hr Hp eq_refl) in Hrun;
         injection Hrun as _ <-; now left).
  - rewrite (@run_validateWorkflowProperties_null w propertiesPath content t Hr Hp) in Hrun.
    discriminate Hrun.
  - rewrite (@run_validateWorkflowProperties w propertiesPath content _
               (lookup "iconName" fields) t Hr Hp eq_refl) in Hrun.
    cbv zeta in Hrun.
    destruct (truthy (lookup "iconName" fields));
      [|injection Hrun as _ <-; now left].
    destruct (lookup "iconName" fields) as [[]|] eqn:Hi; try discriminate Hrun.
    destruct (startsWith s "octicon"); [injection Hrun as _ <-; now left|].
    injection Hrun as _ <-.
    destruct (fs_access w (icon_path s)) eqn:Ha; [now left|].
    right. exists s. cbn [own_property]. unfold icon_found.
    rewrite Hi, Ha. repeat split.
Qed.

(** X8: the validator returns the empty list exactly on the accepted
    documents: well-formed, with an [iconName] that is empty, or starts with
    the built-in prefix, or has its file in the icons directory. *)
Theorem validator_accepts w propertiesPath content properties t :
  fs_readFile w propertiesPath = Ok content ->
  JSON_parse w content = Ok properties ->
  (exists t', validateWorkflowProperties w propertiesPath t = (t', Ok [])) <->
  accepted w properties = true.
Proof.
  intros Hr Hp. unfold accepted.
  destruct properties;
    try (rewrite (@run_validateWorkflowProperties w propertiesPath content _
                    undefined t Hr Hp eq_refl);
         cbv zeta; cbn [truthy undefined well_formed andb];
         split; [intros [t' H]; discriminate H | discriminate]).
  - rewrite (@run_validateWorkflowProperties_null w propertiesPath content t Hr Hp).
    split; [intros [t' H]; discriminate H | discriminate].
  - rewrite (@run_validateWorkflowProperties w propertiesPath content _
               (lookup "iconName" fields) t Hr Hp eq_refl).
    cbv zeta. cbn [own_property].
    rewrite <- validate_isEmpty.
    destruct (validate (Some (JObj fields)) propertiesSchema) as [|x xs] eqn:Hv.
    + cbn [isEmpty andb map].
      assert (Hwf : well_formed (JObj fields) = true)
        by (now rewrite <- validate_isEmpty, Hv).
      cbn [well_formed] in Hwf.
      destruct (lookup "iconName" fields) as [[]|];
        try (rewrite !andb_false_r in Hwf || rewrite andb_false_r in Hwf;
             discriminate Hwf).
      cbn [truthy]. unfold icon_found.
      destruct (String.eqb s ""); cbn [negb orb].
      * split; [reflexivity | intros _; eexists; reflexivity].
      * destruct (startsWith s "octicon"); cbn [orb].
        -- split; [reflexivity | intros _; eexists; reflexivity].
        -- destruct (fs_access w (icon_path s)).
           ++ split; [reflexivity | intros _; eexists; reflexivity].
           ++ split; [intros [t' H]; discriminate H | discriminate].
    + cbn [isEmpty andb map]. split; [|discriminate].
      intros [t' H].
      destruct (truthy (lookup "iconName" fields)); [|discriminate H].
      destruct (lookup "iconName" fields) as [[]|]; try discriminate H.
      destruct (startsWith s "octicon"); [discriminate H|].
      destruct (fs_access w (icon_path s)); discriminate H.
Qed.

(* ================================================================= *)
(** * Further properties of the Workflow Validator *)

(** X1: when the metadata was validated and the body was read, parsed and
    validated without an exception, the record lists the metadata errors and
    then the violations of the body; it is free of errors exactly when both
    are. *)
Theorem checkWorkflow_completes
    w workflowPath propertiesPath metadataErrors content workflow violations
    t t1 :
  validateWorkflowProperties w propertiesPath t = (t1, Ok metadataErrors) ->
  fs_readFile w workflowPath = Ok content ->
  safeLoad w content = Ok workflow ->
  validate_workflow w workflow = Ok violations ->
  checkWorkflow w workflowPath propertiesPath t =
    ((t1 ++ [EvReadFile workflowPath])%list,
     Ok {| id := workflowPath;
           errors :=
             (metadataErrors ++ map ValidationError_toString violations)%list |})
  /\ ((metadataErrors ++ map ValidationError_toString violations)%list = [] <->
      metadataErrors = [] /\ violations = []).
Proof.
  intros Hm Hr Hl Hv. split.
  - now rewrite run_checkWorkflow, Hm, Hr, Hl, Hv.
  - split.
    + intros H. apply app_eq_nil in H. destruct H as [-> H].
      now apply map_eq_nil in H.
    + now intros [-> ->].
Qed.

(** What the metadata validation leaves in the trace: the read of the
    metadata file and at most one [fs.access]. *)
Lemma validateWorkflowProperties_events w propertiesPath t :
  exists tr,
    fst (validateWorkflowProperties w propertiesPath t) =
      (t ++ EvReadFile propertiesPath :: tr)%list /\
    (tr = [] \/ exists s, tr = [EvAccess (icon_path s)]).
Proof.
  unfold validateWorkflowProperties, try_catch, bind.
  rewrite run_readFile.
  destruct (fs_readFile w propertiesPath) as [content|e];
    [|exists []; split; [reflexivity | now left]].
  unfold lift.
  destruct (JSON_parse w content) as [properties|e];
    [|exists []; split; [reflexivity | now left]].
  destruct (get_property properties "iconName") as [iconName|e];
    [|exists []; split; [reflexivity | now left]].
  destruct (truthy iconName);
    [|exists []; split; [reflexivity | now left]].
  destruct iconName as [[]|];
    try (exists []; split; [reflexivity | now left]).
  destruct (startsWith s "octicon"); cbn [negb].
  - exists []. split; [reflexivity | now left].
  - rewrite run_access. exists [EvAccess (icon_path s)].
    split; [|right; now exists s].
    rewrite <- app_assoc.
    destruct (fs_access w (icon_path s)); reflexivity.
Qed.

(** X14: [checkWorkflow] calls [fs] at most three times and in this order:
    [fs.readFile] on the metadata file, then possibly [fs.access] on one icon
    file, then possibly [fs.readFile] on the workflow file.  (The schema
    document of line 104 is loaded with [require], not with [fs].) *)
Theorem checkWorkflow_file_accesses w workflowPath propertiesPath t :
  exists icon body,
    fst (checkWorkflow w workflowPath propertiesPath t) =
      (t ++ EvReadFile propertiesPath :: icon ++ body)%list /\
    (icon = [] \/ exists s, icon = [EvAccess (icon_path s)]) /\
    (body = [] \/ body = [EvReadFile workflowPath]).
Proof.
  destruct (validateWorkflowProperties_events w propertiesPath t)
    as [tr [Htr Hicon]].
  rewrite run_checkWorkflow.
  destruct (validateWorkflowProperties w propertiesPath t) as [t1 [errs|e]];
    cbn [fst] in *; subst t1.
  - exists tr, [EvReadFile workflowPath].
    split; [now rewrite <- app_assoc | split; [exact Hicon | now right]].
  - exists tr, []. rewrite app_nil_r.
    split; [reflexivity | split; [exact Hicon | now left]].
Qed.

(* ================================================================= *)
(** * Further properties of the Directory Scanner *)

(** X10: entries that are not regular files (the [properties] directory, any
    other directory) are passed over: the loop over a listing does what it
    does on the regular files of that listing, event for event. *)
Theorem scan_skips_directories w folder dir result t :
  scan_entries w folder dir result t =
    scan_entries w folder (filter isFile dir) result t.
Proof.
  revert result t. induction dir as [|e dir IH]; intros result t.
  - reflexivity.
  - cbn [filter scan_entries]. destruct (isFile e) eqn:Hfile.
    + cbn [scan_entries]. rewrite Hfile. unfold bind.
      destruct (checkWorkflow w (workflowFilePath w folder e)
                  (propertiesFilePath w folder e) t) as [t1 [r|x]];
        [|reflexivity].
      destruct (Nat.ltb 0 (List.length (errors r))); apply IH.
    + apply IH.
Qed.

Lemma scan_entries_prepend w folder dir :
  forall result t,
    scan_entries w folder dir result t =
      prepend result (scan_entries w folder dir [] t).
Proof.
  induction dir as [|e dir IH]; intros result t.
  - cbn. unfold ret. cbn. now rewrite app_nil_r.
  - cbn [scan_entries]. destruct (isFile e); [|apply IH].
    unfold bind.
    destruct (checkWorkflow w (workflowFilePath w folder e)
                (propertiesFilePath w folder e) t) as [t1 [r|x]];
      [|reflexivity].
    destruct (Nat.ltb 0 (List.length (errors r))); [|apply IH].
    rewrite (IH (push result r)), (IH (push [] r)).
    destruct (scan_entries w folder dir [] t1) as [t2 [found|x]];
      [|reflexivity].
    unfold push. cbn. now rewrite <- app_assoc.
Qed.

Lemma scan_folders_prepend w folders :
  forall result t,
    scan_folders w folders result t =
      prepend result (scan_folders w folders [] t).
Proof.
  induction folders as [|folder folders IH]; intros result t.
  - cbn. unfold ret. cbn. now rewrite app_nil_r.
  - cbn [scan_folders]. unfold bind.
    destruct (readdir w folder t) as [t1 [dir|x]]; [|reflexivity].
    rewrite (scan_entries_prepend w folder dir result t1).
    destruct (scan_entries w folder dir [] t1) as [t2 [found|x]];
      [|reflexivity].
    cbn [prepend]. rewrite (IH (result ++ found)%list), (IH ([] ++ found)%list).
    destruct (scan_folders w folders [] t2) as [t3 [found'|x]];
      [|reflexivity].
    cbn. now rewrite <- app_assoc.
Qed.

Lemma scan_folders_app w first second :
  forall result t,
    scan_folders w (first ++ second) result t =
      bind (scan_folders w first result) (scan_folders w second) t.
Proof.
  induction first as [|folder first IH]; intros result t.
  - reflexivity.
  - cbn [app scan_folders]. unfold bind.
    destruct (readdir w folder t) as [t1 [dir|x]]; [|reflexivity].
    destruct (scan_entries w folder dir result t1) as [t2 [result'|x]];
      [|reflexivity].
    rewrite IH. reflexivity.
Qed.

(** X11: scanning two lists of folders one after the other is scanning their
    concatenation: the records of the first scan come first, the second scan
    continues the trace of the first; and when the first scan throws, so does
    the scan of the concatenation, without touching the second list. *)
Theorem checkWorkflows_app w first second t t1 :
  (forall found t2 found',
     checkWorkflows w first t = (t1, Ok found) ->
     checkWorkflows w second t1 = (t2, Ok found') ->
     checkWorkflows w (first ++ second) t = (t2, Ok (found ++ found')%list)) /\
  (forall e,
     checkWorkflows w first t = (t1, Throw e) ->
     checkWorkflows w (first ++ second) t = (t1, Throw e)).
Proof.
  unfold checkWorkflows. split.
  - intros found t2 found' H1 H2.
    rewrite scan_folders_app. unfold bind. rewrite H1.
    now rewrite scan_folders_prepend, H2.
  - intros e H1. rewrite scan_folders_app. unfold bind. now rewrite H1.
Qed.

Lemma record_of_id w p r : record_of w p r -> id r = fst p.
Proof.
  unfold record_of, outcome. rewrite run_checkWorkflow.
  destruct (validateWorkflowProperties w (snd p) []) as [t1 [errs|e]];
    cbn [snd]; now intros [= <-].
Qed.

Lemma checkWorkflows_returned w folders t t' result :
  checkWorkflows w folders t = (t', Ok result) ->
  exists records,
    Forall2 (record_of w) (discovered w folders) records /\
    result = filter has_errors records.
Proof.
  intros Hrun.
  destruct (listable_or_first_failure w folders)
    as [Hall | [pre [folder [post [e [-> [Hpre Hfolder]]]]]]].
  - destruct (scan_folders_spec Hall [] t) as [tr [records [Hrec Hrun']]].
    unfold checkWorkflows in Hrun. rewrite Hrun' in Hrun.
    injection Hrun as _ <-. now exists records.
  - destruct (@scan_folders_throws w pre folder post e Hpre Hfolder [] t)
      as [tr Hthrows].
    unfold checkWorkflows in Hrun. rewrite Hthrows in Hrun. discriminate Hrun.
Qed.

(** X12: every record a scan returns has at least one error and is named
    after a regular file of one of the scanned folders. *)
Theorem returned_records_have_errors w folders t t' result r :
  checkWorkflows w folders t = (t', Ok result) ->
  In r result ->
  errors r <> [] /\
  exists p, In p (discovered w folders) /\ id r = fst p.
Proof.
  intros Hrun Hr.
  destruct (checkWorkflows_returned _ _ _ Hrun) as [records [Hrec ->]].
  apply filter_In in Hr. destruct Hr as [Hin Herr]. split.
  - unfold has_errors in Herr. now destruct (errors r).
  - clear Hrun Herr. induction Hrec as [|p r' ps rs Hp _ IH].
    + destruct Hin.
    + destruct Hin as [<- | Hin].
      * exists p. split; [now left | now apply (@record_of_id w)].
      * destruct (IH Hin) as [q [Hq Hid]]. exists q. split; [now right | exact Hid].
Qed.

Lemma emits_ret A (P : event -> bool) (a : A) : emits P (ret a).
Proof. intro t. exists []. now rewrite app_nil_r. Qed.

Lemma emits_throw A (P : event -> bool) (e : exn) : emits P (@throw A e).
Proof. intro t. exists []. now rewrite app_nil_r. Qed.

Lemma emits_lift A (P : event -> bool) (r : result A) : emits P (lift r).
Proof. intro t. exists []. now rewrite app_nil_r. Qed.

Lemma emits_emit (P : event -> bool) (e : event) :
  P e = true -> emits P (emit e).
Proof. intros He t. exists [e]. cbn. now rewrite He. Qed.

Lemma emits_bind A B (P : event -> bool) (m : M A) (k : A -> M B) :
  emits P m -> (forall a, emits P (k a)) -> emits P (bind m k).
Proof.
  intros Hm Hk t. unfold bind.
  destruct (Hm t) as [tr1 [H1 P1]].
  destruct (m t) as [t1 [a|e]]; cbn [fst] in H1; subst t1.
  - destruct (Hk a (t ++ tr1)%list) as [tr2 [H2 P2]].
    exists (tr1 ++ tr2)%list. rewrite H2, app_assoc, forallb_app, P1, P2.
    now split.
  - now exists tr1.
Qed.

Lemma emits_try_catch A (P : event -> bool) (m : M A) (h : exn -> M A) :
  emits P m -> (forall e, emits P (h e)) -> emits P (try_catch m h).
Proof.
  intros Hm Hh t. unfold try_catch.
  destruct (Hm t) as [tr1 [H1 P1]].
  destruct (m t) as [t1 [a|e]]; cbn [fst] in H1; subst t1.
  - now exists tr1.
  - destruct (Hh e (t ++ tr1)%list) as [tr2 [H2 P2]].
    exists (tr1 ++ tr2)%list. rewrite H2, app_assoc, forallb_app, P1, P2.
    now split.
Qed.

Lemma emits_attempt A (P : event -> bool) (m : M A) :
  emits P m -> emits P (attempt m).
Proof.
  intros Hm t. unfold attempt. destruct (Hm t) as [tr [H1 P1]].
  destruct (m t) as [t1 r]. now exists tr.
Qed.

Ltac emits_step :=
  first
    [ apply emits_ret | apply emits_throw | apply emits_lift
    | apply emits_emit; reflexivity | apply emits_attempt
    | apply emits_bind; [ | intro ]
    | apply emits_try_catch; [ | intro ]
    | match goal with
      | |- emits _ (if ?b then _ else _) => destruct b
      | |- emits _ (match ?x with _ => _ end) => destruct x
      end ].

Lemma emits_checkWorkflow w workflowPath propertiesPath :
  emits is_fs_event (checkWorkflow w workflowPath propertiesPath).
Proof.
  unfold checkWorkflow, validateWorkflowProperties, readFile, access.
  repeat emits_step.
Qed.

Lemma emits_scan_entries w folder dir :
  forall result, emits is_fs_event (scan_entries w folder dir result).
Proof.
  induction dir as [|e dir IH]; intros result; cbn [scan_entries].
  - apply emits_ret.
  - destruct (isFile e); [|apply IH].
    apply emits_bind; [apply emits_checkWorkflow|].
    intros r. destruct (Nat.ltb 0 (List.length (errors r))); apply IH.
Qed.

Lemma emits_scan_folders w folders :
  forall result, emits is_fs_event (scan_folders w folders result).
Proof.
  induction folders as [|folder folders IH]; intros result; cbn [scan_folders].
  - apply emits_ret.
  - apply emits_bind; [unfold readdir; repeat emits_step|].
    intros dir. apply emits_bind; [apply emits_scan_entries|].
    intros result'. apply IH.
Qed.

(** X13: a scan only lists folders, reads files and looks for icons: it logs
    nothing and never marks the run as failed, which is left to [main]. *)
Theorem checkWorkflows_only_reads w folders t :
  exists tr,
    fst (checkWorkflows w folders t) = (t ++ tr)%list /\
    forallb is_fs_event tr = true.
Proof. apply (emits_scan_folders w folders []). Qed.

(* ================================================================= *)
(** * The Reporter *)

Lemma run_forEach A (line : A -> event) (l : list A) t :
  forEach l (fun a => emit (line a)) t = ((t ++ map line l)%list, Ok tt).
Proof.
  revert t. induction l as [|a l IH]; intros t; cbn [forEach map].
  - unfold ret. now rewrite app_nil_r.
  - unfold bind, emit at 1. rewrite IH. now rewrite <- app_assoc.
Qed.

(** What [main] does once the settings are loaded and the scan has ended. *)
Lemma run_main w folders t t1 scanned :
  settings_folders w = Ok folders ->
  checkWorkflows w folders t = (t1, scanned) ->
  main w t =
    match scanned with
    | Throw e =>
        ((t1 ++ [ EvError ("Unhandled error while syncing workflows: "
                             ++ exn_toString e);
                  EvSetFailed "Unhandled error" ])%list, Ok tt)
    | Ok [] =>
        ((t1 ++ [ timing_line w;
                  EvInfo "🎉🤘 - Found no workflows with errors!" ])%list,
         Ok tt)
    | Ok erroredWorkflows =>
        ((t1 ++
            [ timing_line w;
              EvStartGroup
                ("😟 - Found " ++ nat_toString (List.length erroredWorkflows)
                   ++ " workflows with errors:") ]
            ++ map error_line erroredWorkflows
            ++ [ EvEndGroup;
                 EvSetFailed
                   ("Found " ++ nat_toString (List.length erroredWorkflows)
                      ++ " workflows with errors") ])%list,
         Ok tt)
    end.
Proof.
  intros Hs Hrun. unfold main, try_catch, bind at 1, lift. rewrite Hs.
  unfold bind at 1. rewrite Hrun.
  destruct scanned as [[|r rs]|e].
  - unfold bind, info, emit. cbn. now rewrite <- app_assoc.
  - unfold bind at 1, info at 1, emit at 1.
    cbn [List.length Nat.ltb Nat.leb].
    unfold bind at 1, startGroup, emit at 1.
    unfold bind at 1.
    change (forEach (r :: rs) _) with
      (forEach (r :: rs) (fun a => emit (error_line a))).
    rewrite run_forEach.
    unfold bind, endGroup, setFailed, emit.
    rewrite <- !app_assoc. reflexivity.
  - unfold bind, error, setFailed, emit. now rewrite <- app_assoc.
Qed.

(** X15: when the scan returns no record, [main] logs the elapsed time and
    the success message and does not mark the run as failed. *)
Theorem main_reports_success w folders t t1 :
  settings_folders w = Ok folders ->
  checkWorkflows w folders t = (t1, Ok []) ->
  main w t =
    ((t1 ++ [ timing_line w;
              EvInfo "🎉🤘 - Found no workflows with errors!" ])%list,
     Ok tt).
Proof. intros Hs Hrun. now rewrite (@run_main w folders t t1 _ Hs Hrun). Qed.

(** X16: when the scan returns records, [main] logs the elapsed time, opens a
    group that states how many there are, logs one error line for each record
    in the order of the scan, closes the group and marks the run as failed
    with that count. *)
Theorem main_reports_errors w folders t t1 erroredWorkflows :
  settings_folders w = Ok folders ->
  checkWorkflows w folders t = (t1, Ok erroredWorkflows) ->
  erroredWorkflows <> [] ->
  main w t =
    ((t1 ++
        [ timing_line w;
          EvStartGroup
            ("😟 - Found " ++ nat_toString (List.length erroredWorkflows)
               ++ " workflows with errors:") ]
        ++ map error_line erroredWorkflows
        ++ [ EvEndGroup;
             EvSetFailed
               ("Found " ++ nat_toString (List.length erroredWorkflows)
                  ++ " workflows with errors") ])%list,
     Ok tt).
Proof.
  intros Hs Hrun Hne. rewrite (@run_main w folders t t1 _ Hs Hrun).
  destruct erroredWorkflows; [now elim Hne | reflexivity].
Qed.

Lemma fs_events_not_setFailed tr :
  forallb is_fs_event tr = true -> existsb is_setFailed tr = false.
Proof.
  induction tr as [|e tr IH]; [reflexivity|].
  cbn. intros H. apply andb_prop in H. destruct H as [He Htr].
  rewrite (IH Htr). now destruct e.
Qed.

Lemma error_lines_not_setFailed rs :
  existsb is_setFailed (map error_line rs) = false.
Proof. induction rs as [|r rs IH]; [reflexivity | exact IH]. Qed.

(** X17: [main] never throws, and the events it adds mark the run as failed
    unless the settings were loaded and the scan returned no record. *)
Theorem main_fails_unless_clean w t :
  exists tr,
    main w t = ((t ++ tr)%list, Ok tt) /\
    (existsb is_setFailed tr = false <->
     exists folders t1,
       settings_folders w = Ok folders /\
       checkWorkflows w folders t = (t1, Ok [])).
Proof.
  destruct (settings_folders w) as [folders|e] eqn:Hs.
  - destruct (emits_scan_folders w folders [] t) as [trs [Htrs Pfs]].
    change (scan_folders w folders []) with (checkWorkflows w folders) in Htrs.
    destruct (checkWorkflows w folders t) as [t1 scanned] eqn:Hrun.
    cbn [fst] in Htrs. subst t1.
    rewrite (@run_main w folders t (t ++ trs)%list _ Hs Hrun).
    pose proof (fs_events_not_setFailed _ Pfs) as Hno.
    destruct scanned as [[|r rs]|e].
    + eexists. rewrite <- app_assoc. split; [reflexivity|].
      rewrite existsb_app, Hno. cbn. split; [|reflexivity].
      intros _. exists folders, (t ++ trs)%list. now split.
    + eexists. rewrite <- app_assoc. split; [reflexivity|].
      rewrite !existsb_app, Hno, error_lines_not_setFailed.
      unfold timing_line. cbn [existsb is_setFailed orb].
      split; [discriminate|].
      intros [folders' [t1 [[= <-] H]]]. rewrite Hrun in H. discriminate H.
    + eexists. rewrite <- app_assoc. split; [reflexivity|].
      rewrite existsb_app, Hno. cbn. split; [discriminate|].
      intros [folders' [t1 [[= <-] H]]]. rewrite Hrun in H. discriminate H.
  - exists [ EvError ("Unhandled error while syncing workflows: "
                        ++ exn_toString e);
             EvSetFailed "Unhandled error" ].
    split.
    + unfold main, try_catch, bind, lift. rewrite Hs.
      unfold error, setFailed, emit. now rewrite <- app_assoc.
    + cbn. split; [discriminate|]. intros [folders [t1 [H _]]]. discriminate H.
Qed.

Lemma checkWorkflow_reads_metadata w workflowPath propertiesPath t :
  exists tr r,
    checkWorkflow w workflowPath propertiesPath t =
      ((t ++ EvReadFile propertiesPath :: tr)%list, Ok r).
Proof.
  destruct (validateWorkflowProperties_events w propertiesPath t)
    as [tr [Htr _]].
  rewrite run_checkWorkflow.
  destruct (validateWorkflowProperties w propertiesPath t) as [t1 [errs|e]];
    cbn [fst] in Htr; subst t1.
  - exists (tr ++ [EvReadFile workflowPath])%list. eexists.
    now rewrite <- app_assoc.
  - exists tr. eexists. reflexivity.
Qed.

Lemma scan_entries_reads w folder dir :
  forall result t,
  exists tr result',
    scan_entries w folder dir result t = ((t ++ tr)%list, Ok result') /\
    forall e, In e dir -> isFile e = true ->
              In (EvReadFile (propertiesFilePath w folder e)) tr.
Proof.
  induction dir as [|e dir IH]; intros result t; cbn [scan_entries].
  - exists [], result. unfold ret. rewrite app_nil_r.
    split; [reflexivity | intros e []].
  - destruct (isFile e) eqn:Hfile.
    + destruct (checkWorkflow_reads_metadata w (workflowFilePath w folder e)
                  (propertiesFilePath w folder e) t) as [tr1 [r Hrun]].
      unfold bind. rewrite Hrun.
      destruct (IH (if Nat.ltb 0 (List.length (errors r))
                    then push result r else result)
                  (t ++ EvReadFile (propertiesFilePath w folder e) :: tr1)%list)
        as [tr2 [result' [Hrest Hreads]]].
      exists ((EvReadFile (propertiesFilePath w folder e) :: tr1) ++ tr2)%list,
             result'.
      split.
      * rewrite app_assoc.
        destruct (Nat.ltb 0 (List.length (errors r))); exact Hrest.
      * intros e' [<- | Hin] He'.
        -- now left.
        -- apply in_or_app. right. now apply Hreads.
    + destruct (IH result t) as [tr [result' [Hrest Hreads]]].
      exists tr, result'. split; [exact Hrest|].
      intros e' [<- | Hin] He'; [congruence | now apply Hreads].
Qed.

(** X18: a file with errors does not stop the scan: when every folder can be
    listed, the scan returns and has read the metadata file of every regular
    file of every folder. *)
Theorem scan_validates_every_file w folders t :
  Forall (listable w) folders ->
  exists tr found,
    checkWorkflows w folders t = ((t ++ tr)%list, Ok found) /\
    forall p, In p (discovered w folders) -> In (EvReadFile (snd p)) tr.
Proof.
  unfold checkWorkflows. generalize (@nil WorkflowWithErrors) as result.
  intros result H. revert result t.
  induction H as [|folder folders [dir Hdir] _ IH]; intros result t;
    cbn [scan_folders discovered flat_map].
  - exists [], result. unfold ret. rewrite app_nil_r.
    split; [reflexivity | intros p []].
  - unfold bind. rewrite run_readdir, Hdir.
    destruct (scan_entries_reads w folder dir result (t ++ [EvReaddir folder]))
      as [tr1 [result1 [Hrun1 Hreads1]]].
    rewrite Hrun1.
    destruct (IH result1 ((t ++ [EvReaddir folder]) ++ tr1)%list)
      as [tr2 [found [Hrun2 Hreads2]]].
    exists ([EvReaddir folder] ++ tr1 ++ tr2)%list, found. split.
    + rewrite Hrun2, !app_assoc. reflexivity.
    + intros p Hp. apply in_app_or in Hp. destruct Hp as [Hp | Hp].
      * unfold workflow_files in Hp. rewrite Hdir in Hp.
        apply in_map_iff in Hp. destruct Hp as [e [<- He]].
        apply filter_In in He. destruct He as [Hin Hfile].
        apply in_or_app. right. apply in_or_app. left.
        now apply Hreads1.
      * apply in_or_app. right. apply in_or_app. right. now apply Hreads2.
Qed.

(* ================================================================= *)
(** * The further properties on the sample repository *)

Lemma checkWorkflow_completes_witness :
  checkWorkflow Sample.world "ci/node.yml"
    "ci/properties/node.properties.json" [] =
    ([ EvReadFile "ci/properties/node.properties.json";
       EvReadFile "ci/node.yml" ],
     Ok {| id := "ci/node.yml"; errors := [] |}).
Proof.
  apply (proj1 (@checkWorkflow_completes Sample.world "ci/node.yml"
                  "ci/properties/node.properties.json" [] "name: Node"
                  (Some (JObj [("name", JStr "Node")])) [] []
                  [EvReadFile "ci/properties/node.properties.json"]
                  eq_refl eq_refl eq_refl eq_refl)).
Defined.

Lemma null_document_sole_error_witness :
  checkWorkflow Edge.world "ci/null.yml"
    "ci/properties/null.properties.json" [] =
    ([EvReadFile "ci/properties/null.properties.json"],
     Ok {| id := "ci/null.yml";
           errors := ["TypeError: Cannot read property 'iconName' of null"] |}).
Proof.
  apply (@null_document_sole_error Edge.world "ci/null.yml"
           "ci/properties/null.properties.json" "null" []);
    reflexivity.
Defined.

Lemma non_string_icon_sole_error_witness :
  checkWorkflow Sample.world "ci/bad.yml"
    "ci/properties/bad.properties.json" [] =
    ([EvReadFile "ci/properties/bad.properties.json"],
     Ok {| id := "ci/bad.yml";
           errors :=
             ["TypeError: properties.iconName.startsWith is not a function"] |}).
Proof.
  apply (@non_string_icon_sole_error Sample.world "ci/bad.yml"
           "ci/properties/bad.properties.json" Sample.bad_properties
           (JObj [ ("description", JStr "Bad"); ("iconName", JNum 5%float);
                   ("categories", JNull) ])
           (Some (JNum 5%float)) []);
    reflexivity.
Defined.

Lemma non_object_document_witness :
  validateWorkflowProperties Edge.world
    "ci/properties/list.properties.json" [] =
    ([EvReadFile "ci/properties/list.properties.json"],
     Ok ["instance is not of a type(s) object"]).
Proof.
  apply (@non_object_document Edge.world
           "ci/properties/list.properties.json" "[]" (JArr []) []);
    try reflexivity; discriminate.
Defined.

Lemma non_string_property_reported_witness :
  In (type_error "iconName")
    (validate
       (Some (JObj [ ("description", JStr "Bad"); ("iconName", JNum 5%float);
                     ("categories", JNull) ]))
       propertiesSchema).
Proof.
  apply (@non_string_property_reported
           [ ("description", JStr "Bad"); ("iconName", JNum 5%float);
             ("categories", JNull) ]
           "iconName" (JNum 5%float)).
  - simpl. auto.
  - reflexivity.
  - reflexivity.
Defined.

Lemma unknown_property_ignored_witness :
  validate
    (Some (JObj ([("name", JStr "Node")]
                   ++ ("author", JStr "me") :: [("categories", JNull)])%list))
    propertiesSchema =
  validate
    (Some (JObj ([("name", JStr "Node")] ++ [("categories", JNull)])%list))
    propertiesSchema.
Proof.
  apply (@unknown_property_ignored "author" (JStr "me")
           [("name", JStr "Node")] [("categories", JNull)]).
  unfold property_names. simpl. intuition discriminate.
Defined.

Lemma validator_accepts_witness :
  (exists t',
     validateWorkflowProperties Sample.world
       "ci/properties/node.properties.json" [] = (t', Ok [])) <->
  accepted Sample.world
    (JObj [ ("name", JStr "Node"); ("description", JStr "Build");
            ("iconName", JStr "octicon package"); ("categories", JNull) ])
    = true.
Proof.
  apply (@validator_accepts Sample.world
           "ci/properties/node.properties.json" Sample.node_properties
           (JObj [ ("name", JStr "Node"); ("description", JStr "Build");
                   ("iconName", JStr "octicon package");
                   ("categories", JNull) ])
           []);
    reflexivity.
Defined.

Lemma validator_result_shape_witness :
  ["No icon named label found"] =
    schema_errors
      (JObj [ ("name", JStr "Label"); ("description", JStr "Labels");
              ("iconName", JStr "label"); ("categories", JNull) ]) \/
  exists s,
    own_property
      (Some (JObj [ ("name", JStr "Label"); ("description", JStr "Labels");
                    ("iconName", JStr "label"); ("categories", JNull) ]))
      "iconName" = Some (JStr s) /\
    icon_found Sample.world s = false /\
    ["No icon named label found"] =
      (schema_errors
         (JObj [ ("name", JStr "Label"); ("description", JStr "Labels");
                 ("iconName", JStr "label"); ("categories", JNull) ])
         ++ [missing_icon s])%list.
Proof.
  apply (@validator_result_shape Sample.world
           "automation/properties/label.properties.json"
           Sample.label_properties
           (JObj [ ("name", JStr "Label"); ("description", JStr "Labels");
                   ("iconName", JStr "label"); ("categories", JNull) ])
           []
           [ EvReadFile "automation/properties/label.properties.json";
             EvAccess "../../icons/label.svg" ]
           ["No icon named label found"]);
    reflexivity.
Defined.

Lemma checkWorkflows_app_witness :
  exists t2 found,
    checkWorkflows Sample.world (["ci"] ++ ["automation"]) [] =
      (t2, Ok found) /\
    List.length found = 5.
Proof.
  eexists. eexists. split.
  - apply (proj1 (@checkWorkflows_app Sample.world ["ci"] ["automation"] []
                    (fst (checkWorkflows Sample.world ["ci"] []))));
      vm_compute; reflexivity.
  - reflexivity.
Defined.

Lemma returned_records_have_errors_witness :
  errors {| id := "automation/label.yml";
            errors := ["No icon named label found"] |} <> [] /\
  exists p,
    In p (discovered Sample.world ["ci"; "automation"]) /\
    "automation/label.yml" = fst p.
Proof.
  apply (@returned_records_have_errors Sample.world ["ci"; "automation"] []
           (fst (checkWorkflows Sample.world ["ci"; "automation"] []))
           (match snd (checkWorkflows Sample.world ["ci"; "automation"] []) with
            | Ok found => found
            | Throw _ => []
            end)
           {| id := "automation/label.yml";
              errors := ["No icon named label found"] |}).
  - vm_compute. reflexivity.
  - vm_compute. auto 10.
Defined.

Lemma main_reports_success_witness :
  main Edge.world [] =
    ([ EvReaddir "stable";
       EvReadFile "stable/properties/build.properties.json";
       EvReadFile "stable/build.yml";
       EvInfo "Call to checkWorkflows took 3 milliseconds.";
       EvInfo "🎉🤘 - Found no workflows with errors!" ],
     Ok tt).
Proof.
  apply (@main_reports_success Edge.world ["stable"] []
           [ EvReaddir "stable";
             EvReadFile "stable/properties/build.properties.json";
             EvReadFile "stable/build.yml" ]);
    reflexivity.
Defined.

Lemma main_reports_errors_witness :
  exists t1 erroredWorkflows,
    List.length erroredWorkflows = 5 /\
    main Sample.world [] =
      ((t1 ++
          [ timing_line Sample.world;
            EvStartGroup
              ("😟 - Found " ++ nat_toString (List.length erroredWorkflows)
                 ++ " workflows with errors:") ]
          ++ map error_line erroredWorkflows
          ++ [ EvEndGroup;
               EvSetFailed
                 ("Found " ++ nat_toString (List.length erroredWorkflows)
                    ++ " workflows with errors") ])%list,
       Ok tt).
Proof.
  exists (fst (checkWorkflows Sample.world ["ci"; "automation"] [])).
  exists (match snd (checkWorkflows Sample.world ["ci"; "automation"] []) with
          | Ok found => found
          | Throw _ => []
          end).
  split; [vm_compute; reflexivity|].
  apply (@main_reports_errors Sample.world ["ci"; "automation"] []
           (fst (checkWorkflows Sample.world ["ci"; "automation"] []))
           (match snd (checkWorkflows Sample.world ["ci"; "automation"] [])
            with
            | Ok found => found
            | Throw _ => []
            end)).
  - reflexivity.
  - vm_compute. reflexivity.
  - vm_compute. discriminate.
Defined.

Lemma scan_validates_every_file_witness :
  exists tr found,
    checkWorkflows Sample.world ["ci"; "automation"] [] =
      (([] ++ tr)%list, Ok found) /\
    forall p, In p (discovered Sample.world ["ci"; "automation"]) ->
              In (EvReadFile (snd p)) tr.
Proof.
  apply (@scan_validates_every_file Sample.world ["ci"; "automation"] []).
  repeat constructor; eexists; reflexivity.
Defined.
